(** * qmicli, Network Access Service actions (src/cli/qmicli-nas.c)

    A shallow embedding of the NAS command-line actions of qmicli: the
    action selector [qmicli_nas_options_enabled], the per-run [Context]
    with [context_free] and [shutdown], the dispatcher [qmicli_nas_run]
    and the seven completion callbacks that decode a response and print
    it.

    The C code works on process-wide statics (the option flags, the
    cached action count, the [ctx] pointer) and talks to GLib and to the
    QMI protocol library.  Here the statics are the fields of a [World],
    every call into GLib or the library that can be observed from the
    outside is an [event] appended to the world's trace, and a C function
    is a computation in the monad [M], which can return, leave the
    process through [exit], or run into behaviour the C standard leaves
    undefined. *)

From Stdlib Require Import ZArith List String Bool Lia QArith.
From Stdlib Require Import Floats.SpecFloat.
From Stdlib Require Import QArith.Qabs.
Import ListNotations.
Local Open Scope string_scope.
Local Open Scope list_scope.
Local Open Scope Z_scope.

(* ===================================================================== *)
(** ** C scalars *)

(** [gdouble] is IEEE binary64. *)
Definition prec : Z := 53.
Definition emax : Z := 1024.
Definition gdouble := spec_float.

(** [(gdouble) z] for an integer [z]. *)
Definition gdouble_of_int (z : Z) : gdouble := binary_normalize prec emax z 0 false.
Definition gdouble_mul : gdouble -> gdouble -> gdouble := SFmul prec emax.
Definition gdouble_div : gdouble -> gdouble -> gdouble := SFdiv prec emax.

(** The literals of the source that are not integers. *)
Definition lit_0_5 : gdouble := gdouble_div (gdouble_of_int 1) (gdouble_of_int 2).
Definition lit_0_25 : gdouble := gdouble_div (gdouble_of_int 1) (gdouble_of_int 4).
Definition lit_0_1 : gdouble := gdouble_div (gdouble_of_int 1) (gdouble_of_int 10).
Definition lit_4_5 : gdouble := gdouble_div (gdouble_of_int 9) (gdouble_of_int 2).
Definition lit_3600 : gdouble := gdouble_of_int 3600.
Definition G_MAXDOUBLE : gdouble := SFmax_float prec emax.

(** The rational number a finite double stands for. *)
Definition gdouble_value (d : gdouble) : option Q :=
  match d with
  | S754_zero _ => Some 0%Q
  | S754_finite s m e =>
      let mag := match e with
                 | Z0 => inject_Z (Zpos m)
                 | Zpos p => inject_Z (Zpos m * 2 ^ Zpos p)
                 | Zneg p => Qmake (Zpos m) (2 ^ p)%positive
                 end in
      Some (if s then Qopp mag else mag)
  | _ => None
  end.

(** [gint] is a 32 bit two's complement integer. *)
Definition to_gint (z : Z) : Z := (z + 2 ^ 31) mod 2 ^ 32 - 2 ^ 31.
Definition gint_mul (a b : Z) : Z := to_gint (a * b).

Definition EXIT_FAILURE : Z := 1.

(* ===================================================================== *)
(** ** Objects, context and options *)

(** Reference counted GObjects are told apart by their C type and an
    identity. *)
Definition QmiDevice := nat.
Definition QmiClientNas := nat.
Definition GCancellable := nat.

Inductive gobject : Type :=
| ObjDevice (d : QmiDevice)
| ObjClient (c : QmiClientNas)
| ObjCancellable (c : GCancellable).

(** A struct member: [g_slice_new] hands out memory that was not cleared,
    so a member holds no determinate value until it is assigned. *)
Inductive slot (A : Type) : Type :=
| Uninit
| Init (a : A).
Arguments Uninit {A}.
Arguments Init {A} a.

(** [typedef struct { QmiDevice *device; QmiClientNas *client;
                      GCancellable *cancellable; } Context;]
    A pointer member is [None] when it is [NULL]. *)
Record Context : Type := mkContext {
  device : slot (option QmiDevice);
  client : slot (option QmiClientNas);
  cancellable : slot (option GCancellable)
}.

(** The static [Context *ctx]: never assigned, pointing to a live block,
    or dangling after [g_slice_free]. *)
Inductive ctx_ptr : Type :=
| CtxNull
| CtxLive (c : Context)
| CtxFreed.

(** The static option flags, filled in by the option parser. *)
Record Options : Type := mkOptions {
  get_signal_strength_flag : bool;
  get_signal_info_flag : bool;
  get_serving_system_flag : bool;
  get_technology_preference_flag : bool;
  get_system_selection_preference_flag : bool;
  network_scan_flag : bool;
  reset_flag : bool;
  noop_flag : bool
}.

(* ===================================================================== *)
(** ** Events *)

(** Strings that the protocol library builds from an enumeration value or
    from a bit mask; the library is not part of this file, so the call is
    kept symbolic. *)
Inductive libstr : Type :=
| qmi_nas_radio_interface_get_string
| qmi_nas_registration_state_get_string
| qmi_nas_attach_state_get_string
| qmi_nas_network_type_get_string
| qmi_nas_roaming_indicator_status_get_string
| qmi_nas_data_capability_get_string
| qmi_nas_service_status_get_string
| qmi_nas_network_service_domain_get_string
| qmi_nas_hdr_personality_get_string
| qmi_nas_call_barring_status_get_string
| qmi_nas_preference_duration_get_string
| qmi_nas_cdma_prl_preference_get_string
| qmi_nas_roaming_preference_get_string
| qmi_nas_network_selection_preference_get_string
| qmi_nas_service_domain_preference_get_string
| qmi_nas_gsm_wcdma_acquisition_order_preference_get_string
| qmi_nas_radio_technology_preference_build_string_from_mask
| qmi_nas_rat_mode_preference_build_string_from_mask
| qmi_nas_band_preference_build_string_from_mask
| qmi_nas_lte_band_preference_build_string_from_mask
| qmi_nas_td_scdma_band_preference_build_string_from_mask
| qmi_nas_network_status_build_string_from_mask.

(** An automatic variable that an accessor fills in: it keeps no
    determinate value when the accessor found the field group absent. *)
Inductive local (A : Type) : Type :=
| Indet
| Val (a : A).
Arguments Indet {A}.
Arguments Val {A} a.

(** One variadic argument of [g_print], [g_printerr] or [g_warning]. *)
Inductive arg : Type :=
| AInt (z : Z)                      (* %d *)
| AUInt (z : Z)                     (* %u, %hu *)
| ADouble (d : gdouble)             (* %lf *)
| AStr (s : string)                 (* %s, a literal or a decoded string *)
| ALib (f : libstr) (v : Z)         (* %s, built by the library from v *)
| ADevicePath (d : QmiDevice)       (* %s, qmi_device_get_path_display *)
| ALibEnum (f : libstr) (enumerator : string) (* %s, built from a named enumerator *)
| AIndet                            (* an indeterminate value is passed *)
| ALibIndet (f : libstr).           (* the library is given an indeterminate value *)

(** The seven requests and the callbacks that complete them. *)
Inductive callback : Type :=
| get_signal_strength_ready_cb
| get_signal_info_ready_cb
| get_serving_system_ready_cb
| get_technology_preference_ready_cb
| get_system_selection_preference_ready_cb
| network_scan_ready_cb
| reset_ready_cb
| noop_cb_cb.

(** The categories of [QmiNasSignalStrengthRequest]; a mask is kept as the
    list of its categories, joined with [|] in the source. *)
Inductive QmiNasSignalStrengthRequest : Type :=
| QMI_NAS_SIGNAL_STRENGTH_REQUEST_RSSI
| QMI_NAS_SIGNAL_STRENGTH_REQUEST_ECIO
| QMI_NAS_SIGNAL_STRENGTH_REQUEST_IO
| QMI_NAS_SIGNAL_STRENGTH_REQUEST_SINR
| QMI_NAS_SIGNAL_STRENGTH_REQUEST_RSRQ
| QMI_NAS_SIGNAL_STRENGTH_REQUEST_LTE_SNR
| QMI_NAS_SIGNAL_STRENGTH_REQUEST_LTE_RSRP.

(** [QmiMessageNasGetSignalStrengthInput]: the request mask it carries. *)
Record SignalStrengthInput : Type := mkInput {
  request_mask : list QmiNasSignalStrengthRequest
}.

(** The accessors of the response field groups, one per
    [qmi_message_nas_*_output_get_*] function the callbacks call. *)
Inductive accessor : Type :=
(* Get Signal Info *)
| si_get_cdma_signal_strength | si_get_hdr_signal_strength
| si_get_gsm_signal_strength | si_get_wcdma_signal_strength
| si_get_lte_signal_strength | si_get_tdma_signal_strength
(* Get Signal Strength *)
| ss_get_signal_strength | ss_get_strength_list | ss_get_rssi_list
| ss_get_ecio_list | ss_get_io | ss_get_sinr | ss_get_rsrq
| ss_get_lte_snr | ss_get_lte_rsrp
(* Get Serving System *)
| sy_get_serving_system | sy_get_roaming_indicator
| sy_get_data_service_capability | sy_get_current_plmn
| sy_get_cdma_system_id | sy_get_cdma_base_station_info
| sy_get_roaming_indicator_list | sy_get_default_roaming_indicator
| sy_get_time_zone_3gpp2 | sy_get_cdma_p_rev | sy_get_time_zone_3gpp
| sy_get_daylight_saving_time_adjustment_3gpp | sy_get_lac_3gpp
| sy_get_cid_3gpp | sy_get_concurrent_service_info_3gpp2
| sy_get_prl_indicator_3gpp2 | sy_get_dual_transfer_mode_supported
| sy_get_detailed_service_status | sy_get_cdma_system_info
| sy_get_hdr_personality | sy_get_lte_tac | sy_get_call_barring_status
| sy_get_umts_primary_scrambling_code
| sy_get_mnc_pcs_digit_include_status
(* Get Technology Preference *)
| tp_get_active | tp_get_persistent
(* Get System Selection Preference *)
| sp_get_emergency_mode | sp_get_mode_preference | sp_get_band_preference
| sp_get_lte_band_preference | sp_get_td_scdma_band_preference
| sp_get_cdma_prl_preference | sp_get_roaming_preference
| sp_get_network_selection_preference
| sp_get_service_domain_preference
| sp_get_gsm_wcdma_acquisition_order_preference
| sp_get_manual_network_selection
(* Network Scan *)
| ns_get_network_information | ns_get_radio_access_technology
| ns_get_mnc_pcs_digit_include_status.

(** What the process does that can be seen from outside this file. *)
Inductive event : Type :=
| EvSliceNew
| EvSliceFree
| EvRef (o : gobject)
| EvUnref (o : gobject)
| EvPrint (fmt : string) (args : list arg)
| EvPrintErr (fmt : string) (args : list arg)
| EvWarning (fmt : string) (args : list arg)
| EvDebug (msg : string)
| EvWarnIfReached
| EvInputNew
| EvInputUnref (input : option SignalStrengthInput)
| EvSubmit (cb : callback) (client : QmiClientNas)
           (input : option SignalStrengthInput) (timeout : Z)
           (cancel : option GCancellable)
| EvIdleAdd (cb : callback)
| EvFinish (cb : callback)
| EvGetResult (cb : callback)
| EvProbe (a : accessor)
| EvErrorFree
| EvOutputUnref (cb : callback)
| EvFree
| EvOperationDone (operation_status : bool).

(* ===================================================================== *)
(** ** The world and the monad of C functions *)

Record World : Type := mkWorld {
  options : Options;
  (* the two statics of qmicli_nas_options_enabled *)
  n_actions : Z;
  checked : bool;
  (* static Context *ctx *)
  ctx : ctx_ptr;
  (* callbacks handed to the main loop and not yet invoked *)
  pending : list callback;
  (* the error, if any, that the library's set_request_mask reports *)
  set_request_mask_error : option string;
  trace : list event
}.

Definition set_n_actions (n : Z) (w : World) : World :=
  mkWorld (options w) n (checked w) (ctx w) (pending w)
          (set_request_mask_error w) (trace w).
Definition set_checked (b : bool) (w : World) : World :=
  mkWorld (options w) (n_actions w) b (ctx w) (pending w)
          (set_request_mask_error w) (trace w).
Definition set_ctx (c : ctx_ptr) (w : World) : World :=
  mkWorld (options w) (n_actions w) (checked w) c (pending w)
          (set_request_mask_error w) (trace w).
Definition set_pending (p : list callback) (w : World) : World :=
  mkWorld (options w) (n_actions w) (checked w) (ctx w) p
          (set_request_mask_error w) (trace w).
Definition log (evs : list event) (w : World) : World :=
  mkWorld (options w) (n_actions w) (checked w) (ctx w) (pending w)
          (set_request_mask_error w) (trace w ++ evs).

Inductive outcome (A : Type) : Type :=
| Ok (a : A) (w : World)            (* the function returned a *)
| Exit (status : Z) (w : World)     (* exit (status) was called *)
| Undefined (why : string) (w : World). (* undefined behaviour was reached *)
Arguments Ok {A} a w.
Arguments Exit {A} status w.
Arguments Undefined {A} why w.

Definition M (A : Type) : Type := World -> outcome A.

Definition ret {A} (a : A) : M A := fun w => Ok a w.
Definition bind {A B} (m : M A) (k : A -> M B) : M B :=
  fun w => match m w with
           | Ok a w' => k a w'
           | Exit s w' => Exit s w'
           | Undefined why w' => Undefined why w'
           end.

Declare Scope cmd_scope.
Delimit Scope cmd_scope with cmd.
Notation "x <- m ;; k" := (bind m (fun x => k))
  (at level 61, m at next level, right associativity) : cmd_scope.
Notation "m ;; k" := (bind m (fun _ => k))
  (at level 61, right associativity) : cmd_scope.
Local Open Scope cmd_scope.

Definition emit (e : event) : M unit := fun w => Ok tt (log [e] w).
Definition exit {A} (status : Z) : M A := fun w => Exit status w.
Definition undefined {A} (why : string) : M A := fun w => Undefined why w.
Definition get_world : M World := fun w => Ok w w.
Definition modify (f : World -> World) : M unit := fun w => Ok tt (f w).

(** Reading a struct member that was never assigned. *)
Definition read_slot {A} (s : slot A) : M A :=
  match s with
  | Init a => ret a
  | Uninit => undefined "read of an uninitialised struct member"
  end.

(** Dereferencing the static [ctx]. *)
Definition deref_ctx : M Context :=
  w <- get_world ;;
  match ctx w with
  | CtxLive c => ret c
  | CtxNull => undefined "NULL ctx dereferenced"
  | CtxFreed => undefined "ctx used after g_slice_free"
  end.

(** [ctx->device], [ctx->client], [ctx->cancellable]. *)
Definition ctx_device : M (option QmiDevice) := c <- deref_ctx ;; read_slot (device c).
Definition ctx_client : M (option QmiClientNas) := c <- deref_ctx ;; read_slot (client c).
Definition ctx_cancellable : M (option GCancellable) :=
  c <- deref_ctx ;; read_slot (cancellable c).

(** [qmi_device_get_path_display (ctx->device)]. *)
Definition device_path_display : M arg :=
  d <- ctx_device ;;
  match d with
  | Some d => ret (ADevicePath d)
  | None => undefined "qmi_device_get_path_display (NULL)"
  end.

Definition g_print (fmt : string) (args : list arg) : M unit := emit (EvPrint fmt args).
Definition g_printerr (fmt : string) (args : list arg) : M unit := emit (EvPrintErr fmt args).
Definition g_warning (fmt : string) (args : list arg) : M unit := emit (EvWarning fmt args).
Definition g_debug (msg : string) : M unit := emit (EvDebug msg).

(* ===================================================================== *)
(** ** Action selector *)

(** The sum of the eight [gboolean] flags. *)
Definition count_actions (o : Options) : Z :=
  Z.b2z (get_signal_strength_flag o) +
  Z.b2z (get_signal_info_flag o) +
  Z.b2z (get_serving_system_flag o) +
  Z.b2z (get_technology_preference_flag o) +
  Z.b2z (get_system_selection_preference_flag o) +
  Z.b2z (network_scan_flag o) +
  Z.b2z (reset_flag o) +
  Z.b2z (noop_flag o).

(** [!!n] *)
Definition not_not (n : Z) : bool := negb (n =? 0).

(** [gboolean qmicli_nas_options_enabled (void)] *)
Definition qmicli_nas_options_enabled : M bool :=
  w <- get_world ;;
  if checked w then ret (not_not (n_actions w))
  else
    modify (set_n_actions (count_actions (options w))) ;;
    w1 <- get_world ;;
    (if 1 <? n_actions w1
     then g_printerr "error: too many NAS actions requested\n" [] ;;
          exit EXIT_FAILURE
     else ret tt) ;;
    modify (set_checked true) ;;
    w2 <- get_world ;;
    ret (not_not (n_actions w2)).

(* ===================================================================== *)
(** ** Context teardown *)

(** [g_slice_free (Context, ctx)] through the static pointer: the block
    is gone, the pointer keeps its old value. *)
Definition g_slice_free_ctx : M unit :=
  emit EvSliceFree ;; modify (set_ctx CtxFreed).

(** [static void context_free (Context *ctx)], called on the static. *)
Definition context_free : M unit :=
  w <- get_world ;;
  match ctx w with
  | CtxNull => ret tt
  | CtxFreed => undefined "context_free on a freed context"
  | CtxLive c =>
      k <- read_slot (cancellable c) ;;
      match k with Some k => emit (EvUnref (ObjCancellable k)) | None => ret tt end ;;
      d <- read_slot (device c) ;;
      match d with Some d => emit (EvUnref (ObjDevice d)) | None => ret tt end ;;
      c <- read_slot (client c) ;;
      match c with Some c => emit (EvUnref (ObjClient c)) | None => ret tt end ;;
      g_slice_free_ctx
  end.

(** [static void shutdown (gboolean operation_status)] *)
Definition shutdown (operation_status : bool) : M unit :=
  context_free ;;
  emit (EvOperationDone operation_status).

(* ===================================================================== *)
(** ** Responses *)

(** What [qmi_message_nas_*_output_get_result] finds. *)
Inductive qmi_result : Type :=
| ResultSuccess
| ResultFailure (message : string).

(** What [qmi_client_nas_*_finish] hands to the callback: the decoded
    output, or [NULL] and an error. *)
Inductive async_result (O : Type) : Type :=
| Finished (output : O)
| Failed (message : string).
Arguments Finished {O} output.
Arguments Failed {O} message.

(** A field group is [None] when its accessor returns [FALSE]. *)
Record SignalInfoOutput : Type := mkSignalInfoOutput {
  si_result : qmi_result;
  si_cdma_signal_strength : option (Z * Z);          (* rssi, ecio *)
  si_hdr_signal_strength : option (Z * Z * Z * Z);   (* rssi, ecio, sinr_level, io *)
  si_gsm_signal_strength : option Z;                 (* rssi *)
  si_wcdma_signal_strength : option (Z * Z);         (* rssi, ecio *)
  si_lte_signal_strength : option (Z * Z * Z * Z);   (* rssi, rsrq, rsrp, snr *)
  si_tdma_signal_strength : option Z                 (* rscp *)
}.

Record SignalStrengthOutput : Type := mkSignalStrengthOutput {
  ss_result : qmi_result;
  ss_signal_strength : option (Z * Z);               (* strength, radio_interface *)
  ss_strength_list : option (list (Z * Z));          (* radio_interface, strength *)
  ss_rssi_list : option (list (Z * Z));              (* radio_interface, rssi *)
  ss_ecio_list : option (list (Z * Z));              (* radio_interface, ecio *)
  ss_io : option Z;
  ss_sinr : option Z;
  ss_rsrq : option (Z * Z);                          (* rsrq, radio_interface *)
  ss_lte_snr : option Z;
  ss_lte_rsrp : option Z
}.

Record ServingSystemOutput : Type := mkServingSystemOutput {
  sy_result : qmi_result;
  (* registration_state, cs_attach_state, ps_attach_state,
     selected_network, radio_interfaces *)
  sy_serving_system : option (Z * Z * Z * Z * list Z);
  sy_roaming_indicator : option Z;
  sy_data_service_capability : option (list Z);
  sy_current_plmn : option (Z * Z * string);         (* mcc, mnc, description *)
  sy_cdma_system_id : option (Z * Z);                (* sid, nid *)
  sy_cdma_base_station_info : option (Z * Z * Z);    (* id, latitude, longitude *)
  sy_roaming_indicator_list : option (list (Z * Z)); (* radio_interface, roaming_indicator *)
  sy_default_roaming_indicator : option Z;
  sy_time_zone_3gpp2 : option (Z * Z * bool);        (* leap_seconds, local_time_offset, dst *)
  sy_cdma_p_rev : option Z;
  sy_time_zone_3gpp : option Z;
  sy_daylight_saving_time_adjustment_3gpp : option Z;
  sy_lac_3gpp : option Z;
  sy_cid_3gpp : option Z;
  sy_concurrent_service_info_3gpp2 : option bool;
  sy_prl_indicator_3gpp2 : option bool;
  sy_dual_transfer_mode_supported : option bool;
  (* status, capability, hdr_status, hdr_hybrid, forbidden *)
  sy_detailed_service_status : option (Z * Z * Z * bool * bool);
  sy_cdma_system_info : option (Z * Z);              (* mcc, imsi_11_12 *)
  sy_hdr_personality : option Z;
  sy_lte_tac : option Z;
  sy_call_barring_status : option (Z * Z);           (* cs_status, ps_status *)
  sy_umts_primary_scrambling_code : option Z;
  sy_mnc_pcs_digit_include_status : option (Z * Z * bool) (* mcc, mnc, has_pcs_digit *)
}.

Record TechnologyPreferenceOutput : Type := mkTechnologyPreferenceOutput {
  tp_result : qmi_result;
  tp_active : option (Z * Z);                        (* preference, duration *)
  tp_persistent : option Z                           (* preference *)
}.

Record SystemSelectionPreferenceOutput : Type := mkSystemSelectionPreferenceOutput {
  sp_result : qmi_result;
  sp_emergency_mode : option bool;
  sp_mode_preference : option Z;
  sp_band_preference : option Z;
  sp_lte_band_preference : option Z;
  sp_td_scdma_band_preference : option Z;
  sp_cdma_prl_preference : option Z;
  sp_roaming_preference : option Z;
  sp_network_selection_preference : option Z;
  sp_service_domain_preference : option Z;
  sp_gsm_wcdma_acquisition_order_preference : option Z;
  sp_manual_network_selection : option (Z * Z * bool) (* mcc, mnc, has_pcs_digit *)
}.

Record NetworkScanOutput : Type := mkNetworkScanOutput {
  ns_result : qmi_result;
  (* mcc, mnc, network_status, description *)
  ns_network_information : option (list (Z * Z * Z * string));
  ns_radio_access_technology : option (list (Z * Z * Z));   (* mcc, mnc, radio_interface *)
  ns_mnc_pcs_digit_include_status : option (list (Z * Z * bool)) (* mcc, mnc, includes_pcs_digit *)
}.

Record ResetOutput : Type := mkResetOutput {
  rs_result : qmi_result
}.

(* ===================================================================== *)
(** ** Decoding helpers *)

(** [if (accessor (output, &v, NULL)) { body }] *)
Definition if_get {A} (acc : accessor) (group : option A) (body : A -> M unit) : M unit :=
  emit (EvProbe acc) ;;
  match group with
  | Some v => body v
  | None => ret tt
  end.

(** [accessor (output, &v, NULL);] with the returned [gboolean] dropped:
    the variables are written only when the group is there. *)
Definition get_unchecked {A} (acc : accessor) (group : option A) : M (local A) :=
  emit (EvProbe acc) ;;
  ret (match group with Some v => Val v | None => Indet end).

(** [for (i = 0; i < array->len; i++) { body }], from index [i] on. *)
Fixpoint for_each {A} (i : Z) (array : list A) (body : Z -> A -> M unit) : M unit :=
  match array with
  | [] => ret tt
  | element :: rest => body i element ;; for_each (i + 1) rest body
  end.

(** [array->len] *)
Definition len {A} (array : list A) : Z := Z.of_nat (List.length array).

(** [flag ? yes : no] *)
Definition choose (flag : bool) (yes no : string) : arg :=
  if flag then AStr yes else AStr no.

(** [(-0.5) * ((gdouble) ecio)] *)
Definition ecio_db (ecio : Z) : gdouble :=
  gdouble_mul (SFopp lit_0_5) (gdouble_of_int ecio).

(** [(0.1) * ((gdouble) snr)] *)
Definition snr_db (snr : Z) : gdouble :=
  gdouble_mul lit_0_1 (gdouble_of_int snr).

(** Modelled from the spec: the enumerators of [QmiNasEvdoSinrLevel] are
    declared in the protocol library's headers, which are not part of the
    sources; the spec numbers the nine levels 0 to 8. *)
Definition QMI_NAS_EVDO_SINR_LEVEL_0 : Z := 0.
Definition QMI_NAS_EVDO_SINR_LEVEL_1 : Z := 1.
Definition QMI_NAS_EVDO_SINR_LEVEL_2 : Z := 2.
Definition QMI_NAS_EVDO_SINR_LEVEL_3 : Z := 3.
Definition QMI_NAS_EVDO_SINR_LEVEL_4 : Z := 4.
Definition QMI_NAS_EVDO_SINR_LEVEL_5 : Z := 5.
Definition QMI_NAS_EVDO_SINR_LEVEL_6 : Z := 6.
Definition QMI_NAS_EVDO_SINR_LEVEL_7 : Z := 7.
Definition QMI_NAS_EVDO_SINR_LEVEL_8 : Z := 8.

(** [static gdouble get_db_from_sinr_level (QmiNasEvdoSinrLevel level)] *)
Definition get_db_from_sinr_level (level : Z) : M gdouble :=
  if level =? QMI_NAS_EVDO_SINR_LEVEL_0 then ret (gdouble_of_int (-9))
  else if level =? QMI_NAS_EVDO_SINR_LEVEL_1 then ret (gdouble_of_int (-6))
  else if level =? QMI_NAS_EVDO_SINR_LEVEL_2 then ret (SFopp lit_4_5)
  else if level =? QMI_NAS_EVDO_SINR_LEVEL_3 then ret (gdouble_of_int (-3))
  else if level =? QMI_NAS_EVDO_SINR_LEVEL_4 then ret (gdouble_of_int (-2))
  else if level =? QMI_NAS_EVDO_SINR_LEVEL_5 then ret (gdouble_of_int 1)
  else if level =? QMI_NAS_EVDO_SINR_LEVEL_6 then ret (gdouble_of_int 3)
  else if level =? QMI_NAS_EVDO_SINR_LEVEL_7 then ret (gdouble_of_int 6)
  else if level =? QMI_NAS_EVDO_SINR_LEVEL_8 then ret (gdouble_of_int 9)
  else
    g_warning "Invalid SINR level '%u'" [AUInt level] ;;
    ret (SFopp G_MAXDOUBLE).

(** The two failure exits every callback starts with.  Escape sequences in
    format strings are kept as the source spells them. *)
Definition operation_failed (message : string) : M unit :=
  g_printerr "error: operation failed: %s\n" [AStr message] ;;
  emit EvErrorFree ;;
  shutdown false.

Definition result_failed (cb : callback) (fmt message : string) : M unit :=
  g_printerr fmt [AStr message] ;;
  emit EvErrorFree ;;
  emit (EvOutputUnref cb) ;;
  shutdown false.

(* ===================================================================== *)
(** ** Get Signal Info *)

Definition si_print_cdma (v : Z * Z) : M unit :=
  let '(rssi, ecio) := v in
  g_print "CDMA:\n\tRSSI: '%d dBm'\n\tECIO: '%.1lf dBm'\n"
          [AInt rssi; ADouble (ecio_db ecio)].

Definition si_print_hdr (v : Z * Z * Z * Z) : M unit :=
  let '(rssi, ecio, sinr_level, io) := v in
  db <- get_db_from_sinr_level sinr_level ;;
  g_print "HDR:\n\tRSSI: '%d dBm'\n\tECIO: '%.1lf dBm'\n\tSINR (%u): '%.1lf dB'\n\tIO: '%d dBm'\n"
          [AInt rssi; ADouble (ecio_db ecio); AUInt sinr_level; ADouble db; AInt io].

Definition si_print_gsm (rssi : Z) : M unit :=
  g_print "GSM:\n\tRSSI: '%d dBm'\n" [AInt rssi].

Definition si_print_wcdma (v : Z * Z) : M unit :=
  let '(rssi, ecio) := v in
  g_print "WCDMA:\n\tRSSI: '%d dBm'\n\tECIO: '%.1lf dBm'\n"
          [AInt rssi; ADouble (ecio_db ecio)].

Definition si_print_lte (v : Z * Z * Z * Z) : M unit :=
  let '(rssi, rsrq, rsrp, snr) := v in
  g_print "LTE:\n\tRSSI: '%d dBm'\n\tRSRQ: '%d dB'\n\tRSRP: '%d dBm'\n\tSNR: '%.1lf dBm'\n"
          [AInt rssi; AInt rsrq; AInt rsrp; ADouble (snr_db snr)].

Definition si_print_tdma (rscp : Z) : M unit :=
  g_print "TDMA:\n\tRSCP: '%d dBm'\n" [AInt rscp].

(** The field groups of the callback, in the order of the source. *)
Definition get_signal_info_groups (output : SignalInfoOutput) : M unit :=
  if_get si_get_cdma_signal_strength (si_cdma_signal_strength output) si_print_cdma ;;
  if_get si_get_hdr_signal_strength (si_hdr_signal_strength output) si_print_hdr ;;
  if_get si_get_gsm_signal_strength (si_gsm_signal_strength output) si_print_gsm ;;
  if_get si_get_wcdma_signal_strength (si_wcdma_signal_strength output) si_print_wcdma ;;
  if_get si_get_lte_signal_strength (si_lte_signal_strength output) si_print_lte ;;
  if_get si_get_tdma_signal_strength (si_tdma_signal_strength output) si_print_tdma.

(** [static void get_signal_info_ready (QmiClientNas *client, GAsyncResult *res)] *)
Definition get_signal_info_ready (res : async_result SignalInfoOutput) : M unit :=
  emit (EvFinish get_signal_info_ready_cb) ;;
  match res with
  | Failed message => operation_failed message
  | Finished output =>
      emit (EvGetResult get_signal_info_ready_cb) ;;
      match si_result output with
      | ResultFailure message =>
          result_failed get_signal_info_ready_cb
                        "error: couldn't get signal info: %s\n" message
      | ResultSuccess =>
          path <- device_path_display ;;
          g_print "[%s] Successfully got signal info\n" [path] ;;
          get_signal_info_groups output ;;
          emit (EvOutputUnref get_signal_info_ready_cb) ;;
          shutdown true
      end
  end.

(* ===================================================================== *)
(** ** Get Signal Strength *)

Definition radio_interface_string (radio_interface : Z) : arg :=
  ALib qmi_nas_radio_interface_get_string radio_interface.

(** The first group is read without looking at what the accessor
    returns, and printed in every case. *)
Definition ss_print_current (path : arg) (v : local (Z * Z)) : M unit :=
  g_print "[%s] Successfully got signal strength\nCurrent:\n\tNetwork '%s': '%d dBm'\n"
          match v with
          | Val (strength, radio_interface) =>
              [path; radio_interface_string radio_interface; AInt strength]
          | Indet =>
              [path; ALibIndet qmi_nas_radio_interface_get_string; AIndet]
          end.

Definition ss_print_strength_list (array : list (Z * Z)) : M unit :=
  g_print "Other:\n" [] ;;
  for_each 0 array (fun _ element =>
    let '(radio_interface, strength) := element in
    g_print "\tNetwork '%s': '%d dBm'\n"
            [radio_interface_string radio_interface; AInt strength]).

Definition ss_print_rssi_list (array : list (Z * Z)) : M unit :=
  g_print "RSSI:\n" [] ;;
  for_each 0 array (fun _ element =>
    let '(radio_interface, rssi) := element in
    g_print "\tNetwork '%s': '%d dBm'\n"
            [radio_interface_string radio_interface; AInt (gint_mul (-1) rssi)]).

Definition ss_print_ecio_list (array : list (Z * Z)) : M unit :=
  g_print "ECIO:\n" [] ;;
  for_each 0 array (fun _ element =>
    let '(radio_interface, ecio) := element in
    g_print "\tNetwork '%s': '%.1lf dBm'\n"
            [radio_interface_string radio_interface; ADouble (ecio_db ecio)]).

Definition ss_print_io (io : Z) : M unit :=
  g_print "IO:\n\tNetwork '%s': '%d dBm'\n"
          [ALibEnum qmi_nas_radio_interface_get_string "QMI_NAS_RADIO_INTERFACE_CDMA_1XEVDO"; AInt io].

Definition ss_print_sinr (sinr_level : Z) : M unit :=
  db <- get_db_from_sinr_level sinr_level ;;
  g_print "SINR:\n\tNetwork '%s': (%u) '%.1lf dB'\n"
          [ALibEnum qmi_nas_radio_interface_get_string "QMI_NAS_RADIO_INTERFACE_CDMA_1XEVDO"; AUInt sinr_level; ADouble db].

Definition ss_print_rsrq (v : Z * Z) : M unit :=
  let '(rsrq, radio_interface) := v in
  g_print "RSRQ:\n\tNetwork '%s': '%d dB'\n"
          [radio_interface_string radio_interface; AInt rsrq].

Definition ss_print_lte_snr (snr : Z) : M unit :=
  g_print "SNR:\n\tNetwork '%s': '%.1lf dB'\n"
          [ALibEnum qmi_nas_radio_interface_get_string "QMI_NAS_RADIO_INTERFACE_LTE"; ADouble (snr_db snr)].

Definition ss_print_lte_rsrp (rsrp : Z) : M unit :=
  g_print "RSRP:\n\tNetwork '%s': '%d dBm'\n"
          [ALibEnum qmi_nas_radio_interface_get_string "QMI_NAS_RADIO_INTERFACE_LTE"; AInt rsrp].

(** The groups after the first one, in the order of the source. *)
Definition get_signal_strength_groups (output : SignalStrengthOutput) : M unit :=
  if_get ss_get_strength_list (ss_strength_list output) ss_print_strength_list ;;
  if_get ss_get_rssi_list (ss_rssi_list output) ss_print_rssi_list ;;
  if_get ss_get_ecio_list (ss_ecio_list output) ss_print_ecio_list ;;
  if_get ss_get_io (ss_io output) ss_print_io ;;
  if_get ss_get_sinr (ss_sinr output) ss_print_sinr ;;
  if_get ss_get_rsrq (ss_rsrq output) ss_print_rsrq ;;
  if_get ss_get_lte_snr (ss_lte_snr output) ss_print_lte_snr ;;
  if_get ss_get_lte_rsrp (ss_lte_rsrp output) ss_print_lte_rsrp.

(** [static void get_signal_strength_ready (QmiClientNas *client, GAsyncResult *res)] *)
Definition get_signal_strength_ready (res : async_result SignalStrengthOutput) : M unit :=
  emit (EvFinish get_signal_strength_ready_cb) ;;
  match res with
  | Failed message => operation_failed message
  | Finished output =>
      emit (EvGetResult get_signal_strength_ready_cb) ;;
      match ss_result output with
      | ResultFailure message =>
          result_failed get_signal_strength_ready_cb
                        "error: couldn't get signal strength: %s\n" message
      | ResultSuccess =>
          current <- get_unchecked ss_get_signal_strength (ss_signal_strength output) ;;
          path <- device_path_display ;;
          ss_print_current path current ;;
          get_signal_strength_groups output ;;
          emit (EvOutputUnref get_signal_strength_ready_cb) ;;
          shutdown true
      end
  end.

(* ===================================================================== *)
(** ** Get Serving System *)

Definition sy_print_interface (i iface : Z) : M unit :=
  g_print "\t\t[%u]: '%s'\n" [AUInt i; radio_interface_string iface].

(** The first group is read without looking at what the accessor
    returns; [radio_interfaces->len] then goes through a pointer that was
    never written when the group is absent. *)
Definition sy_print_serving_system (v : local (Z * Z * Z * Z * list Z)) : M unit :=
  match v with
  | Val (registration_state, cs_attach_state, ps_attach_state,
         selected_network, radio_interfaces) =>
      g_print "\tRegistration state: '%s'\n\tCS: '%s'\n\tPS: '%s'\n\tSelected network: '%s'\n\tRadio interfaces: '%u'"
              [ALib qmi_nas_registration_state_get_string registration_state;
               ALib qmi_nas_attach_state_get_string cs_attach_state;
               ALib qmi_nas_attach_state_get_string ps_attach_state;
               ALib qmi_nas_network_type_get_string selected_network;
               AUInt (len radio_interfaces)] ;;
      for_each 0 radio_interfaces sy_print_interface
  | Indet => undefined "radio_interfaces->len through an indeterminate pointer"
  end.

Definition sy_print_roaming_indicator (roaming : Z) : M unit :=
  g_print "\tRoaming status: '%s'\n"
          [ALib qmi_nas_roaming_indicator_status_get_string roaming].

Definition sy_print_data_service_capability (caps : list Z) : M unit :=
  g_print "\tData service capabilities: '%u'\n" [AUInt (len caps)] ;;
  for_each 0 caps (fun i cap =>
    g_print "\t\t[%u]: '%s'\n" [AUInt i; ALib qmi_nas_data_capability_get_string cap]).

Definition sy_print_current_plmn (v : Z * Z * string) : M unit :=
  let '(mcc, mnc, description) := v in
  g_print "\tCurrent PLMN:\n\t\tMCC: '%hu'\n\t\tMNC: '%hu'\n\t\tDescription: '%s'"
          [AUInt mcc; AUInt mnc; AStr description].

Definition sy_print_cdma_system_id (v : Z * Z) : M unit :=
  let '(sid, nid) := v in
  g_print "\tCDMA System ID:\n\t\tSID: '%hu'\n\t\tESN: '%hu'\n" [AUInt sid; AUInt nid].

(** [((gdouble) raw * 0.25) / 3600.0] *)
Definition degrees (raw : Z) : gdouble :=
  gdouble_div (gdouble_mul (gdouble_of_int raw) lit_0_25) lit_3600.

Definition sy_print_cdma_base_station_info (v : Z * Z * Z) : M unit :=
  let '(id, latitude, longitude) := v in
  g_print "\tCDMA Base station info:\n\t\tBase station ID: '%hu'\n\t\tLatitude: '%lf'º\n\t\tLongitude: '%lf'º\n"
          [AUInt id; ADouble (degrees latitude); ADouble (degrees longitude)].

Definition sy_print_roaming_indicator_list (l : list (Z * Z)) : M unit :=
  g_print "\tRoaming indicators: '%u'\n" [AUInt (len l)] ;;
  for_each 0 l (fun i element =>
    let '(radio_interface, roaming_indicator) := element in
    g_print "\t\t[%u]: '%s' (%s)\n"
            [AUInt i;
             ALib qmi_nas_roaming_indicator_status_get_string roaming_indicator;
             radio_interface_string radio_interface]).

Definition sy_print_default_roaming_indicator (roaming : Z) : M unit :=
  g_print "\tDefault roaming status: '%s'\n"
          [ALib qmi_nas_roaming_indicator_status_get_string roaming].

Definition sy_print_time_zone_3gpp2 (v : Z * Z * bool) : M unit :=
  let '(leap_seconds, local_time_offset, daylight_saving_time) := v in
  g_print "\t3GPP2 time zone:\n\t\tLeap seconds: '%u' seconds\n\t\tLocal time offset: '%d' minutes\n\t\tDaylight saving time: '%s'\n"
          [AUInt leap_seconds;
           AInt (gint_mul (to_gint local_time_offset) 30);
           choose daylight_saving_time "yes" "no"].

Definition sy_print_cdma_p_rev (cdma_p_rev : Z) : M unit :=
  g_print "\tCDMA P_Rev: '%u'\n" [AUInt cdma_p_rev].

Definition sy_print_time_zone_3gpp (time_zone : Z) : M unit :=
  g_print "\t3GPP time zone offset: '%d' minutes\n"
          [AInt (gint_mul (to_gint time_zone) 15)].

Definition sy_print_daylight_saving_time_adjustment_3gpp (adjustment : Z) : M unit :=
  g_print "\t3GPP daylight saving time adjustment: '%u' hours\n" [AUInt adjustment].

Definition sy_print_lac_3gpp (lac : Z) : M unit :=
  g_print "\t3GPP location area code: '%hu'\n" [AUInt lac].

Definition sy_print_cid_3gpp (cid : Z) : M unit :=
  g_print "\t3GPP cell ID: '%u'\n" [AUInt cid].

Definition sy_print_concurrent_service_info_3gpp2 (concurrent : bool) : M unit :=
  g_print "\t3GPP2 concurrent service info: '%s'\n"
          [choose concurrent "available" "not available"].

Definition sy_print_prl_indicator_3gpp2 (prl : bool) : M unit :=
  g_print "\t3GPP2 PRL indicator: '%s'\n"
          [choose prl "system in PRL" "system not in PRL"].

Definition sy_print_dual_transfer_mode_supported (supported : bool) : M unit :=
  g_print "\tDual transfer mode: '%s'\n"
          [choose supported "supported" "not supported"].

Definition sy_print_detailed_service_status (v : Z * Z * Z * bool * bool) : M unit :=
  let '(status, capability, hdr_status, hdr_hybrid, forbidden) := v in
  g_print "\tDetailed status:\n\t\tStatus: '%s'\n\t\tCapability: '%s'\n\t\tHDR Status: '%s'\n\t\tHDR Hybrid: '%s'\n\t\tForbidden: '%s'\n"
          [ALib qmi_nas_service_status_get_string status;
           ALib qmi_nas_network_service_domain_get_string capability;
           ALib qmi_nas_service_status_get_string hdr_status;
           choose hdr_hybrid "yes" "no";
           choose forbidden "yes" "no"].

Definition sy_print_cdma_system_info (v : Z * Z) : M unit :=
  let '(mcc, imsi_11_12) := v in
  g_print "\tCDMA system info:\n\t\tMCC: '%hu'\n\t\tIMSI_11_12: '%u'\n"
          [AUInt mcc; AUInt imsi_11_12].

Definition sy_print_hdr_personality (personality : Z) : M unit :=
  g_print "\tHDR personality: '%s'\n" [ALib qmi_nas_hdr_personality_get_string personality].

Definition sy_print_lte_tac (tac : Z) : M unit :=
  g_print "\tLTE tracking area code: '%hu'\n" [AUInt tac].

Definition sy_print_call_barring_status (v : Z * Z) : M unit :=
  let '(cs_status, ps_status) := v in
  g_print "\tCall barring status:\n\t\tCircuit switched: '%s'\n\t\tPacket switched: '%s'\n"
          [ALib qmi_nas_call_barring_status_get_string cs_status;
           ALib qmi_nas_call_barring_status_get_string ps_status].

Definition sy_print_umts_primary_scrambling_code (code : Z) : M unit :=
  g_print "\tUMTS primary scrambling code: '%hu'\n" [AUInt code].

Definition sy_print_mnc_pcs_digit_include_status (v : Z * Z * bool) : M unit :=
  let '(mcc, mnc, has_pcs_digit) := v in
  g_print "\tFull operator code info:\n\t\tMCC: '%hu'\n\t\tMNC: '%hu'\n\t\tMNC with PCS digit: '%s'\n"
          [AUInt mcc; AUInt mnc; choose has_pcs_digit "yes" "no"].

(** The groups after the first one, in the order of the source. *)
Definition get_serving_system_groups (output : ServingSystemOutput) : M unit :=
  if_get sy_get_roaming_indicator (sy_roaming_indicator output) sy_print_roaming_indicator ;;
  if_get sy_get_data_service_capability (sy_data_service_capability output)
         sy_print_data_service_capability ;;
  if_get sy_get_current_plmn (sy_current_plmn output) sy_print_current_plmn ;;
  if_get sy_get_cdma_system_id (sy_cdma_system_id output) sy_print_cdma_system_id ;;
  if_get sy_get_cdma_base_station_info (sy_cdma_base_station_info output)
         sy_print_cdma_base_station_info ;;
  if_get sy_get_roaming_indicator_list (sy_roaming_indicator_list output)
         sy_print_roaming_indicator_list ;;
  if_get sy_get_default_roaming_indicator (sy_default_roaming_indicator output)
         sy_print_default_roaming_indicator ;;
  if_get sy_get_time_zone_3gpp2 (sy_time_zone_3gpp2 output) sy_print_time_zone_3gpp2 ;;
  if_get sy_get_cdma_p_rev (sy_cdma_p_rev output) sy_print_cdma_p_rev ;;
  if_get sy_get_time_zone_3gpp (sy_time_zone_3gpp output) sy_print_time_zone_3gpp ;;
  if_get sy_get_daylight_saving_time_adjustment_3gpp
         (sy_daylight_saving_time_adjustment_3gpp output)
         sy_print_daylight_saving_time_adjustment_3gpp ;;
  if_get sy_get_lac_3gpp (sy_lac_3gpp output) sy_print_lac_3gpp ;;
  if_get sy_get_cid_3gpp (sy_cid_3gpp output) sy_print_cid_3gpp ;;
  if_get sy_get_concurrent_service_info_3gpp2 (sy_concurrent_service_info_3gpp2 output)
         sy_print_concurrent_service_info_3gpp2 ;;
  if_get sy_get_prl_indicator_3gpp2 (sy_prl_indicator_3gpp2 output)
         sy_print_prl_indicator_3gpp2 ;;
  if_get sy_get_dual_transfer_mode_supported (sy_dual_transfer_mode_supported output)
         sy_print_dual_transfer_mode_supported ;;
  if_get sy_get_detailed_service_status (sy_detailed_service_status output)
         sy_print_detailed_service_status ;;
  if_get sy_get_cdma_system_info (sy_cdma_system_info output) sy_print_cdma_system_info ;;
  if_get sy_get_hdr_personality (sy_hdr_personality output) sy_print_hdr_personality ;;
  if_get sy_get_lte_tac (sy_lte_tac output) sy_print_lte_tac ;;
  if_get sy_get_call_barring_status (sy_call_barring_status output)
         sy_print_call_barring_status ;;
  if_get sy_get_umts_primary_scrambling_code (sy_umts_primary_scrambling_code output)
         sy_print_umts_primary_scrambling_code ;;
  if_get sy_get_mnc_pcs_digit_include_status (sy_mnc_pcs_digit_include_status output)
         sy_print_mnc_pcs_digit_include_status.

(** [static void get_serving_system_ready (QmiClientNas *client, GAsyncResult *res)] *)
Definition get_serving_system_ready (res : async_result ServingSystemOutput) : M unit :=
  emit (EvFinish get_serving_system_ready_cb) ;;
  match res with
  | Failed message => operation_failed message
  | Finished output =>
      emit (EvGetResult get_serving_system_ready_cb) ;;
      match sy_result output with
      | ResultFailure message =>
          result_failed get_serving_system_ready_cb
                        "error: couldn't get serving system: %s\n" message
      | ResultSuccess =>
          path <- device_path_display ;;
          g_print "[%s] Successfully got serving system:\n" [path] ;;
          serving <- get_unchecked sy_get_serving_system (sy_serving_system output) ;;
          sy_print_serving_system serving ;;
          get_serving_system_groups output ;;
          emit (EvOutputUnref get_serving_system_ready_cb) ;;
          shutdown true
      end
  end.

(* ===================================================================== *)
(** ** Get Technology Preference *)

(** The active group is read without looking at what the accessor
    returns, and printed in every case. *)
Definition tp_print_active (path : arg) (v : local (Z * Z)) : M unit :=
  g_print "[%s] Successfully got technology preference\n\tActive: '%s', duration: '%s'\n"
          match v with
          | Val (preference, duration) =>
              [path;
               ALib qmi_nas_radio_technology_preference_build_string_from_mask preference;
               ALib qmi_nas_preference_duration_get_string duration]
          | Indet =>
              [path;
               ALibIndet qmi_nas_radio_technology_preference_build_string_from_mask;
               ALibIndet qmi_nas_preference_duration_get_string]
          end ;;
  emit EvFree.

Definition tp_print_persistent (preference : Z) : M unit :=
  path <- device_path_display ;;
  g_print "\tPersistent: '%s', duration: '%s'\n"
          [path;
           ALib qmi_nas_radio_technology_preference_build_string_from_mask preference] ;;
  emit EvFree.

(** [static void get_technology_preference_ready (QmiClientNas *client, GAsyncResult *res)] *)
Definition get_technology_preference_ready
           (res : async_result TechnologyPreferenceOutput) : M unit :=
  emit (EvFinish get_technology_preference_ready_cb) ;;
  match res with
  | Failed message => operation_failed message
  | Finished output =>
      emit (EvGetResult get_technology_preference_ready_cb) ;;
      match tp_result output with
      | ResultFailure message =>
          result_failed get_technology_preference_ready_cb
                        "error: couldn't get technology preference: %s\n" message
      | ResultSuccess =>
          active <- get_unchecked tp_get_active (tp_active output) ;;
          path <- device_path_display ;;
          tp_print_active path active ;;
          if_get tp_get_persistent (tp_persistent output) tp_print_persistent ;;
          emit (EvOutputUnref get_technology_preference_ready_cb) ;;
          shutdown true
      end
  end.

(* ===================================================================== *)
(** ** Get System Selection Preference *)

Definition sp_print_emergency_mode (emergency_mode : bool) : M unit :=
  g_print "\tEmergency mode: '%s'\n" [choose emergency_mode "yes" "no"].

(** [str = build_string_from_mask (mask); g_print (fmt, str); g_free (str);] *)
Definition sp_print_mask (fmt : string) (f : libstr) (mask : Z) : M unit :=
  g_print fmt [ALib f mask] ;;
  emit EvFree.

Definition sp_print_enum (fmt : string) (f : libstr) (v : Z) : M unit :=
  g_print fmt [ALib f v].

Definition sp_print_manual_network_selection (v : Z * Z * bool) : M unit :=
  let '(mcc, mnc, has_pcs_digit) := v in
  g_print "\tManual network selection:\n\t\tMCC: '%hu'\n\t\tMNC: '%hu'\n\t\tMCC with PCS digit: '%s'\n"
          [AUInt mcc; AUInt mnc; choose has_pcs_digit "yes" "no"].

(** The field groups of the callback, in the order of the source. *)
Definition get_system_selection_preference_groups
           (output : SystemSelectionPreferenceOutput) : M unit :=
  if_get sp_get_emergency_mode (sp_emergency_mode output) sp_print_emergency_mode ;;
  if_get sp_get_mode_preference (sp_mode_preference output)
         (sp_print_mask "\tMode preference: '%s'\n"
                        qmi_nas_rat_mode_preference_build_string_from_mask) ;;
  if_get sp_get_band_preference (sp_band_preference output)
         (sp_print_mask "\tBand preference: '%s'\n"
                        qmi_nas_band_preference_build_string_from_mask) ;;
  if_get sp_get_lte_band_preference (sp_lte_band_preference output)
         (sp_print_mask "\tLTE band preference: '%s'\n"
                        qmi_nas_lte_band_preference_build_string_from_mask) ;;
  if_get sp_get_td_scdma_band_preference (sp_td_scdma_band_preference output)
         (sp_print_mask "\tTD-SCDMA band preference: '%s'\n"
                        qmi_nas_td_scdma_band_preference_build_string_from_mask) ;;
  if_get sp_get_cdma_prl_preference (sp_cdma_prl_preference output)
         (sp_print_enum "\tCDMA PRL preference: '%s'\n"
                        qmi_nas_cdma_prl_preference_get_string) ;;
  if_get sp_get_roaming_preference (sp_roaming_preference output)
         (sp_print_enum "\tRoaming preference: '%s'\n"
                        qmi_nas_roaming_preference_get_string) ;;
  if_get sp_get_network_selection_preference (sp_network_selection_preference output)
         (sp_print_enum "\tNetwork selection preference: '%s'\n"
                        qmi_nas_network_selection_preference_get_string) ;;
  if_get sp_get_service_domain_preference (sp_service_domain_preference output)
         (sp_print_enum "\tService domain preference: '%s'\n"
                        qmi_nas_service_domain_preference_get_string) ;;
  if_get sp_get_gsm_wcdma_acquisition_order_preference
         (sp_gsm_wcdma_acquisition_order_preference output)
         (sp_print_enum "\tService selection preference: '%s'\n"
                        qmi_nas_gsm_wcdma_acquisition_order_preference_get_string) ;;
  if_get sp_get_manual_network_selection (sp_manual_network_selection output)
         sp_print_manual_network_selection.

(** [static void get_system_selection_preference_ready (QmiClientNas *client, GAsyncResult *res)] *)
Definition get_system_selection_preference_ready
           (res : async_result SystemSelectionPreferenceOutput) : M unit :=
  emit (EvFinish get_system_selection_preference_ready_cb) ;;
  match res with
  | Failed message => operation_failed message
  | Finished output =>
      emit (EvGetResult get_system_selection_preference_ready_cb) ;;
      match sp_result output with
      | ResultFailure message =>
          result_failed get_system_selection_preference_ready_cb
                        "error: couldn't get system_selection preference: %s\n" message
      | ResultSuccess =>
          path <- device_path_display ;;
          g_print "[%s] Successfully got system selection preference\n" [path] ;;
          get_system_selection_preference_groups output ;;
          emit (EvOutputUnref get_system_selection_preference_ready_cb) ;;
          shutdown true
      end
  end.

(* ===================================================================== *)
(** ** Network Scan *)

Definition ns_print_network_information (array : list (Z * Z * Z * string)) : M unit :=
  for_each 0 array (fun i element =>
    let '(mcc, mnc, network_status, description) := element in
    g_print "Network [%u]:\n\tMCC: '%hu'\n\tMNC: '%hu'\n\tStatus: '%s'\n\tDescription: '%s'\n"
            [AUInt i; AUInt mcc; AUInt mnc;
             ALib qmi_nas_network_status_build_string_from_mask network_status;
             AStr description] ;;
    emit EvFree).

Definition ns_print_radio_access_technology (array : list (Z * Z * Z)) : M unit :=
  for_each 0 array (fun i element =>
    let '(mcc, mnc, radio_interface) := element in
    g_print "Network [%u]:\n\tMCC: '%hu'\n\tMNC: '%hu'\n\tRAT: '%s'\n"
            [AUInt i; AUInt mcc; AUInt mnc; radio_interface_string radio_interface]).

Definition ns_print_mnc_pcs_digit_include_status (array : list (Z * Z * bool)) : M unit :=
  for_each 0 array (fun i element =>
    let '(mcc, mnc, includes_pcs_digit) := element in
    g_print "Network [%u]:\n\tMCC: '%hu'\n\tMNC: '%hu'\n\tMCC with PCS digit: '%s'\n"
            [AUInt i; AUInt mcc; AUInt mnc; choose includes_pcs_digit "yes" "no"]).

(** The field groups of the callback, in the order of the source. *)
Definition network_scan_groups (output : NetworkScanOutput) : M unit :=
  if_get ns_get_network_information (ns_network_information output)
         ns_print_network_information ;;
  if_get ns_get_radio_access_technology (ns_radio_access_technology output)
         ns_print_radio_access_technology ;;
  if_get ns_get_mnc_pcs_digit_include_status (ns_mnc_pcs_digit_include_status output)
         ns_print_mnc_pcs_digit_include_status.

(** [static void network_scan_ready (QmiClientNas *client, GAsyncResult *res)] *)
Definition network_scan_ready (res : async_result NetworkScanOutput) : M unit :=
  emit (EvFinish network_scan_ready_cb) ;;
  match res with
  | Failed message => operation_failed message
  | Finished output =>
      emit (EvGetResult network_scan_ready_cb) ;;
      match ns_result output with
      | ResultFailure message =>
          result_failed network_scan_ready_cb "error: couldn't scan networks: %s\n" message
      | ResultSuccess =>
          path <- device_path_display ;;
          g_print "[%s] Successfully scanned networks\n" [path] ;;
          network_scan_groups output ;;
          emit (EvOutputUnref network_scan_ready_cb) ;;
          shutdown true
      end
  end.

(* ===================================================================== *)
(** ** Reset and no-op *)

(** [static void reset_ready (QmiClientNas *client, GAsyncResult *res)] *)
Definition reset_ready (res : async_result ResetOutput) : M unit :=
  emit (EvFinish reset_ready_cb) ;;
  match res with
  | Failed message => operation_failed message
  | Finished output =>
      emit (EvGetResult reset_ready_cb) ;;
      match rs_result output with
      | ResultFailure message =>
          result_failed reset_ready_cb "error: couldn't reset the NAS service: %s\n" message
      | ResultSuccess =>
          path <- device_path_display ;;
          g_print "[%s] Successfully performed NAS service reset\n" [path] ;;
          emit (EvOutputUnref reset_ready_cb) ;;
          shutdown true
      end
  end.

(** [static gboolean noop_cb (gpointer unused)] *)
Definition noop_cb : M bool :=
  shutdown true ;;
  ret false.

(* ===================================================================== *)
(** ** Dispatcher *)

(** What the source joins with [|] into [mask]. *)
Definition signal_strength_mask : list QmiNasSignalStrengthRequest :=
  [QMI_NAS_SIGNAL_STRENGTH_REQUEST_RSSI;
   QMI_NAS_SIGNAL_STRENGTH_REQUEST_ECIO;
   QMI_NAS_SIGNAL_STRENGTH_REQUEST_IO;
   QMI_NAS_SIGNAL_STRENGTH_REQUEST_SINR;
   QMI_NAS_SIGNAL_STRENGTH_REQUEST_RSRQ;
   QMI_NAS_SIGNAL_STRENGTH_REQUEST_LTE_SNR;
   QMI_NAS_SIGNAL_STRENGTH_REQUEST_LTE_RSRP].

(** [static QmiMessageNasGetSignalStrengthInput *get_signal_strength_input_create (void)];
    whether the library's [set_request_mask] fails is read from the world. *)
Definition get_signal_strength_input_create : M (option SignalStrengthInput) :=
  emit EvInputNew ;;
  w <- get_world ;;
  match set_request_mask_error w with
  | Some message =>
      g_printerr "error: couldn't create input data bundle: '%s'\n" [AStr message] ;;
      emit EvErrorFree ;;
      emit (EvInputUnref (Some (mkInput []))) ;;
      ret None
  | None => ret (Some (mkInput signal_strength_mask))
  end.

(** Assignment to a member of the block [ctx] points to. *)
Definition assign_ctx (f : Context -> Context) : M unit :=
  c <- deref_ctx ;;
  modify (set_ctx (CtxLive (f c))).

(** [qmi_client_nas_* (ctx->client, input, timeout, ctx->cancellable, cb, NULL)]:
    the request goes to the transport and [cb] is left with the main loop. *)
Definition submit (cb : callback) (input : option SignalStrengthInput) (timeout : Z) : M unit :=
  c <- ctx_client ;;
  k <- ctx_cancellable ;;
  match c with
  | Some c =>
      emit (EvSubmit cb c input timeout k) ;;
      w <- get_world ;;
      modify (set_pending (pending w ++ [cb]))
  | None => undefined "request on a NULL client"
  end.

(** [g_idle_add (noop_cb, NULL)] *)
Definition g_idle_add (cb : callback) : M unit :=
  emit (EvIdleAdd cb) ;;
  w <- get_world ;;
  modify (set_pending (pending w ++ [cb])).

(** [void qmicli_nas_run (QmiDevice *device, QmiClientNas *client,
                          GCancellable *cancellable)] *)
Definition qmicli_nas_run (dev : QmiDevice) (cli : QmiClientNas)
           (cancel : option GCancellable) : M unit :=
  (* Initialize context *)
  emit EvSliceNew ;;
  modify (set_ctx (CtxLive (mkContext Uninit Uninit Uninit))) ;;
  emit (EvRef (ObjDevice dev)) ;;
  assign_ctx (fun c => mkContext (Init (Some dev)) (client c) (cancellable c)) ;;
  emit (EvRef (ObjClient cli)) ;;
  assign_ctx (fun c => mkContext (device c) (Init (Some cli)) (cancellable c)) ;;
  match cancel with
  | Some k =>
      emit (EvRef (ObjCancellable k)) ;;
      assign_ctx (fun c => mkContext (device c) (client c) (Init (Some k)))
  | None => ret tt
  end ;;
  w <- get_world ;;
  let o := options w in
  if get_signal_strength_flag o then
    input <- get_signal_strength_input_create ;;
    g_debug "Asynchronously getting signal strength..." ;;
    submit get_signal_strength_ready_cb input 10 ;;
    emit (EvInputUnref input)
  else if get_signal_info_flag o then
    g_debug "Asynchronously getting signal info..." ;;
    submit get_signal_info_ready_cb None 10
  else if get_serving_system_flag o then
    g_debug "Asynchronously getting serving system..." ;;
    submit get_serving_system_ready_cb None 10
  else if get_technology_preference_flag o then
    g_debug "Asynchronously getting technology preference..." ;;
    submit get_technology_preference_ready_cb None 10
  else if get_system_selection_preference_flag o then
    g_debug "Asynchronously getting system selection preference..." ;;
    submit get_system_selection_preference_ready_cb None 10
  else if network_scan_flag o then
    g_debug "Asynchronously scanning networks..." ;;
    submit network_scan_ready_cb None 300
  else if reset_flag o then
    g_debug "Asynchronously resetting NAS service..." ;;
    submit reset_ready_cb None 10
  else if noop_flag o then
    g_idle_add noop_cb_cb
  else
    emit EvWarnIfReached.

(* ===================================================================== *)
(** ** The main loop *)

(** Modelled from the spec: the main loop and the transport are outside
    the sources.  The transport completes a submitted request once, with a
    response or with an error, after the submitting call has returned;
    an idle source runs on the next turn of the loop.  A [completion] is
    what the loop then hands to the callback it holds. *)
Inductive completion : Type :=
| SignalStrengthDone (res : async_result SignalStrengthOutput)
| SignalInfoDone (res : async_result SignalInfoOutput)
| ServingSystemDone (res : async_result ServingSystemOutput)
| TechnologyPreferenceDone (res : async_result TechnologyPreferenceOutput)
| SystemSelectionPreferenceDone (res : async_result SystemSelectionPreferenceOutput)
| NetworkScanDone (res : async_result NetworkScanOutput)
| ResetDone (res : async_result ResetOutput)
| IdleTurn.

Definition callback_of (c : completion) : callback :=
  match c with
  | SignalStrengthDone _ => get_signal_strength_ready_cb
  | SignalInfoDone _ => get_signal_info_ready_cb
  | ServingSystemDone _ => get_serving_system_ready_cb
  | TechnologyPreferenceDone _ => get_technology_preference_ready_cb
  | SystemSelectionPreferenceDone _ => get_system_selection_preference_ready_cb
  | NetworkScanDone _ => network_scan_ready_cb
  | ResetDone _ => reset_ready_cb
  | IdleTurn => noop_cb_cb
  end.

Definition invoke (c : completion) : M unit :=
  match c with
  | SignalStrengthDone res => get_signal_strength_ready res
  | SignalInfoDone res => get_signal_info_ready res
  | ServingSystemDone res => get_serving_system_ready res
  | TechnologyPreferenceDone res => get_technology_preference_ready res
  | SystemSelectionPreferenceDone res => get_system_selection_preference_ready res
  | NetworkScanDone res => network_scan_ready res
  | ResetDone res => reset_ready res
  | IdleTurn => noop_cb ;; ret tt
  end.

Definition callback_eqb (a b : callback) : bool :=
  match a, b with
  | get_signal_strength_ready_cb, get_signal_strength_ready_cb
  | get_signal_info_ready_cb, get_signal_info_ready_cb
  | get_serving_system_ready_cb, get_serving_system_ready_cb
  | get_technology_preference_ready_cb, get_technology_preference_ready_cb
  | get_system_selection_preference_ready_cb, get_system_selection_preference_ready_cb
  | network_scan_ready_cb, network_scan_ready_cb
  | reset_ready_cb, reset_ready_cb
  | noop_cb_cb, noop_cb_cb => true
  | _, _ => false
  end.

(** One turn of the loop: the callback at the head of [pending] is taken
    off and invoked on its completion; [None] when the loop holds no
    callback for this completion. *)
Definition main_loop_dispatch (c : completion) (w : World) : option (outcome unit) :=
  match pending w with
  | cb :: rest =>
      if callback_eqb cb (callback_of c)
      then Some (invoke c (set_pending rest w))
      else None
  | [] => None
  end.

(** [qmicli_nas_run], then the one turn of the loop that completes it. *)
Definition run_and_complete (dev : QmiDevice) (cli : QmiClientNas)
           (cancel : option GCancellable) (c : completion) (w : World)
  : option (outcome unit) :=
  match qmicli_nas_run dev cli cancel w with
  | Ok _ w1 => main_loop_dispatch c w1
  | other => Some other
  end.

(** A process that has just parsed its options. *)
Definition initial_world (o : Options) (mask_error : option string) : World :=
  mkWorld o 0 false CtxNull [] mask_error [].

Definition no_options : Options :=
  mkOptions false false false false false false false false.

(* ===================================================================== *)
(** ** Vocabulary of the statements *)

(** The callback the dispatcher picks: the first flag set, in the order
    in which [qmicli_nas_run] tests them. *)
Definition selected (o : Options) : option callback :=
  if get_signal_strength_flag o then Some get_signal_strength_ready_cb
  else if get_signal_info_flag o then Some get_signal_info_ready_cb
  else if get_serving_system_flag o then Some get_serving_system_ready_cb
  else if get_technology_preference_flag o then Some get_technology_preference_ready_cb
  else if get_system_selection_preference_flag o
       then Some get_system_selection_preference_ready_cb
  else if network_scan_flag o then Some network_scan_ready_cb
  else if reset_flag o then Some reset_ready_cb
  else if noop_flag o then Some noop_cb_cb
  else None.

(** The overall result a completion carries, when it carries a response. *)
Definition overall_result (c : completion) : option qmi_result :=
  match c with
  | SignalStrengthDone (Finished o) => Some (ss_result o)
  | SignalInfoDone (Finished o) => Some (si_result o)
  | ServingSystemDone (Finished o) => Some (sy_result o)
  | TechnologyPreferenceDone (Finished o) => Some (tp_result o)
  | SystemSelectionPreferenceDone (Finished o) => Some (sp_result o)
  | NetworkScanDone (Finished o) => Some (ns_result o)
  | ResetDone (Finished o) => Some (rs_result o)
  | _ => None
  end.

(** The error of the transport, when the request itself failed. *)
Definition transport_error (c : completion) : option string :=
  match c with
  | SignalStrengthDone (Failed m) | SignalInfoDone (Failed m)
  | ServingSystemDone (Failed m) | TechnologyPreferenceDone (Failed m)
  | SystemSelectionPreferenceDone (Failed m) | NetworkScanDone (Failed m)
  | ResetDone (Failed m) => Some m
  | _ => None
  end.

(** The completion is a response with a successful result, or the idle
    turn of the no-op. *)
Definition succeeded (c : completion) : bool :=
  match c with
  | IdleTurn => true
  | _ => match overall_result c with
         | Some ResultSuccess => true
         | _ => false
         end
  end.

(** A successful serving-system response carries its first group. *)
Definition decodable (c : completion) : bool :=
  match c with
  | ServingSystemDone (Finished o) =>
      match sy_result o, sy_serving_system o with
      | ResultSuccess, None => false
      | _, _ => true
      end
  | _ => true
  end.

(** The events of one teardown of the context [qmicli_nas_run] sets up. *)
Definition teardown_events (dev : QmiDevice) (cli : QmiClientNas) (k : GCancellable)
           (operation_status : bool) : list event :=
  [EvUnref (ObjCancellable k); EvUnref (ObjDevice dev); EvUnref (ObjClient cli);
   EvSliceFree; EvOperationDone operation_status].

Definition is_teardown (e : event) : bool :=
  match e with
  | EvUnref _ | EvSliceFree | EvOperationDone _ => true
  | _ => false
  end.

Definition is_probe (e : event) : bool :=
  match e with
  | EvProbe _ => true
  | _ => false
  end.

Definition is_request (e : event) : bool :=
  match e with
  | EvSubmit _ _ _ _ _ | EvIdleAdd _ => true
  | _ => false
  end.

(** How often events of a kind occur. *)
Definition count (p : event -> bool) (evs : list event) : nat :=
  List.length (filter p evs).

(** The context [qmicli_nas_run] leaves behind when a token was given. *)
Definition run_context (dev : QmiDevice) (cli : QmiClientNas) (k : GCancellable) : ctx_ptr :=
  CtxLive (mkContext (Init (Some dev)) (Init (Some cli)) (Init (Some k))).

(** A world in which only the static [ctx] is of interest. *)
Definition world_with (c : ctx_ptr) : World :=
  mkWorld no_options 0 false c [] None [].

(** What a computation appends to the trace when it is run on its own. *)
Definition events_in {A} (c : ctx_ptr) (m : M A) : list event :=
  match m (world_with c) with
  | Ok _ w | Exit _ w | Undefined _ w => trace w
  end.

(** The report of one optional field group: the call of its accessor,
    then what its own printing code prints when the group is there. *)
Definition rendered {A} (c : ctx_ptr) (acc : accessor) (group : option A)
           (body : A -> M unit) : list event :=
  EvProbe acc ::
  match group with
  | Some v => events_in c (body v)
  | None => []
  end.

(** [m] returns [a] and does nothing but append [evs] to the trace,
    whenever the static [ctx] is [c]. *)
Definition writes {A} (c : ctx_ptr) (m : M A) (a : A) (evs : list event) : Prop :=
  forall w, ctx w = c -> m w = Ok a (log evs w).

(** No event of [evs] belongs to a teardown. *)
Definition quiet (evs : list event) : Prop :=
  forallb (fun e => negb (is_teardown e)) evs = true.

(** [m] returns and does nothing but append events to the trace, none of
    which belongs to a teardown. *)
Definition only_prints {A} (c : ctx_ptr) (m : M A) : Prop :=
  exists a evs, writes c m a evs /\ quiet evs.

(** The worlds the main loop can reach from [w]. *)
Inductive reachable (w : World) : World -> Prop :=
| reachable_here : reachable w w
| reachable_turn w1 w2 c :
    reachable w w1 ->
    main_loop_dispatch c w1 = Some (Ok tt w2) ->
    reachable w w2.

(** The rational [q] is the value of the double [d]. *)
Definition has_value (d : gdouble) (q : Q) : Prop :=
  match gdouble_value d with
  | Some v => Qeq v q
  | None => False
  end.




(** [m] returns, having appended [evs] to the trace and freed the
    context, whenever the static [ctx] is [c]. *)
Definition finishes (c : ctx_ptr) (m : M unit) (evs : list event) : Prop :=
  forall w, ctx w = c -> m w = Ok tt (set_ctx CtxFreed (log evs w)).

Definition is_operation_done (e : event) : bool :=
  match e with
  | EvOperationDone _ => true
  | _ => false
  end.


Definition gobject_eqb (a b : gobject) : bool :=
  match a, b with
  | ObjDevice x, ObjDevice y
  | ObjClient x, ObjClient y
  | ObjCancellable x, ObjCancellable y => Nat.eqb x y
  | _, _ => false
  end.

Definition is_unref_of (o : gobject) (e : event) : bool :=
  match e with
  | EvUnref o' => gobject_eqb o o'
  | _ => false
  end.

(** *** The reports, group by group

    For each callback, the reports of its optional groups in the order a
    reader of the output sees them; each entry is built from one group of
    the response and from nothing else of it. *)

Definition signal_info_report (c : ctx_ptr) (o : SignalInfoOutput) : list event :=
  rendered c si_get_cdma_signal_strength (si_cdma_signal_strength o) si_print_cdma ++
  rendered c si_get_hdr_signal_strength (si_hdr_signal_strength o) si_print_hdr ++
  rendered c si_get_gsm_signal_strength (si_gsm_signal_strength o) si_print_gsm ++
  rendered c si_get_wcdma_signal_strength (si_wcdma_signal_strength o) si_print_wcdma ++
  rendered c si_get_lte_signal_strength (si_lte_signal_strength o) si_print_lte ++
  rendered c si_get_tdma_signal_strength (si_tdma_signal_strength o) si_print_tdma.

Definition signal_strength_report (c : ctx_ptr) (o : SignalStrengthOutput) : list event :=
  rendered c ss_get_strength_list (ss_strength_list o) ss_print_strength_list ++
  rendered c ss_get_rssi_list (ss_rssi_list o) ss_print_rssi_list ++
  rendered c ss_get_ecio_list (ss_ecio_list o) ss_print_ecio_list ++
  rendered c ss_get_io (ss_io o) ss_print_io ++
  rendered c ss_get_sinr (ss_sinr o) ss_print_sinr ++
  rendered c ss_get_rsrq (ss_rsrq o) ss_print_rsrq ++
  rendered c ss_get_lte_snr (ss_lte_snr o) ss_print_lte_snr ++
  rendered c ss_get_lte_rsrp (ss_lte_rsrp o) ss_print_lte_rsrp.

Definition serving_system_report (c : ctx_ptr) (o : ServingSystemOutput) : list event :=
  rendered c sy_get_roaming_indicator (sy_roaming_indicator o) sy_print_roaming_indicator ++
  rendered c sy_get_data_service_capability (sy_data_service_capability o)
           sy_print_data_service_capability ++
  rendered c sy_get_current_plmn (sy_current_plmn o) sy_print_current_plmn ++
  rendered c sy_get_cdma_system_id (sy_cdma_system_id o) sy_print_cdma_system_id ++
  rendered c sy_get_cdma_base_station_info (sy_cdma_base_station_info o)
           sy_print_cdma_base_station_info ++
  rendered c sy_get_roaming_indicator_list (sy_roaming_indicator_list o)
           sy_print_roaming_indicator_list ++
  rendered c sy_get_default_roaming_indicator (sy_default_roaming_indicator o)
           sy_print_default_roaming_indicator ++
  rendered c sy_get_time_zone_3gpp2 (sy_time_zone_3gpp2 o) sy_print_time_zone_3gpp2 ++
  rendered c sy_get_cdma_p_rev (sy_cdma_p_rev o) sy_print_cdma_p_rev ++
  rendered c sy_get_time_zone_3gpp (sy_time_zone_3gpp o) sy_print_time_zone_3gpp ++
  rendered c sy_get_daylight_saving_time_adjustment_3gpp
           (sy_daylight_saving_time_adjustment_3gpp o)
           sy_print_daylight_saving_time_adjustment_3gpp ++
  rendered c sy_get_lac_3gpp (sy_lac_3gpp o) sy_print_lac_3gpp ++
  rendered c sy_get_cid_3gpp (sy_cid_3gpp o) sy_print_cid_3gpp ++
  rendered c sy_get_concurrent_service_info_3gpp2 (sy_concurrent_service_info_3gpp2 o)
           sy_print_concurrent_service_info_3gpp2 ++
  rendered c sy_get_prl_indicator_3gpp2 (sy_prl_indicator_3gpp2 o)
           sy_print_prl_indicator_3gpp2 ++
  rendered c sy_get_dual_transfer_mode_supported (sy_dual_transfer_mode_supported o)
           sy_print_dual_transfer_mode_supported ++
  rendered c sy_get_detailed_service_status (sy_detailed_service_status o)
           sy_print_detailed_service_status ++
  rendered c sy_get_cdma_system_info (sy_cdma_system_info o) sy_print_cdma_system_info ++
  rendered c sy_get_hdr_personality (sy_hdr_personality o) sy_print_hdr_personality ++
  rendered c sy_get_lte_tac (sy_lte_tac o) sy_print_lte_tac ++
  rendered c sy_get_call_barring_status (sy_call_barring_status o)
           sy_print_call_barring_status ++
  rendered c sy_get_umts_primary_scrambling_code (sy_umts_primary_scrambling_code o)
           sy_print_umts_primary_scrambling_code ++
  rendered c sy_get_mnc_pcs_digit_include_status (sy_mnc_pcs_digit_include_status o)
           sy_print_mnc_pcs_digit_include_status.

Definition technology_preference_report (c : ctx_ptr) (o : TechnologyPreferenceOutput)
  : list event :=
  rendered c tp_get_persistent (tp_persistent o) tp_print_persistent.

Definition system_selection_preference_report (c : ctx_ptr)
           (o : SystemSelectionPreferenceOutput) : list event :=
  rendered c sp_get_emergency_mode (sp_emergency_mode o) sp_print_emergency_mode ++
  rendered c sp_get_mode_preference (sp_mode_preference o)
           (sp_print_mask "\tMode preference: '%s'\n"
                          qmi_nas_rat_mode_preference_build_string_from_mask) ++
  rendered c sp_get_band_preference (sp_band_preference o)
           (sp_print_mask "\tBand preference: '%s'\n"
                          qmi_nas_band_preference_build_string_from_mask) ++
  rendered c sp_get_lte_band_preference (sp_lte_band_preference o)
           (sp_print_mask "\tLTE band preference: '%s'\n"
                          qmi_nas_lte_band_preference_build_string_from_mask) ++
  rendered c sp_get_td_scdma_band_preference (sp_td_scdma_band_preference o)
           (sp_print_mask "\tTD-SCDMA band preference: '%s'\n"
                          qmi_nas_td_scdma_band_preference_build_string_from_mask) ++
  rendered c sp_get_cdma_prl_preference (sp_cdma_prl_preference o)
           (sp_print_enum "\tCDMA PRL preference: '%s'\n"
                          qmi_nas_cdma_prl_preference_get_string) ++
  rendered c sp_get_roaming_preference (sp_roaming_preference o)
           (sp_print_enum "\tRoaming preference: '%s'\n"
                          qmi_nas_roaming_preference_get_string) ++
  rendered c sp_get_network_selection_preference (sp_network_selection_preference o)
           (sp_print_enum "\tNetwork selection preference: '%s'\n"
                          qmi_nas_network_selection_preference_get_string) ++
  rendered c sp_get_service_domain_preference (sp_service_domain_preference o)
           (sp_print_enum "\tService domain preference: '%s'\n"
                          qmi_nas_service_domain_preference_get_string) ++
  rendered c sp_get_gsm_wcdma_acquisition_order_preference
           (sp_gsm_wcdma_acquisition_order_preference o)
           (sp_print_enum "\tService selection preference: '%s'\n"
                          qmi_nas_gsm_wcdma_acquisition_order_preference_get_string) ++
  rendered c sp_get_manual_network_selection (sp_manual_network_selection o)
           sp_print_manual_network_selection.

Definition network_scan_report (c : ctx_ptr) (o : NetworkScanOutput) : list event :=
  rendered c ns_get_network_information (ns_network_information o)
           ns_print_network_information ++
  rendered c ns_get_radio_access_technology (ns_radio_access_technology o)
           ns_print_radio_access_technology ++
  rendered c ns_get_mnc_pcs_digit_include_status (ns_mnc_pcs_digit_include_status o)
           ns_print_mnc_pcs_digit_include_status.

(** The table of SINR levels as the specification gives it: level and
    decibels. *)
Definition sinr_table : list (Z * Q) :=
  [(0, (-9 # 1)%Q); (1, (-6 # 1)%Q); (2, (-9 # 2)%Q); (3, (-3 # 1)%Q);
   (4, (-2 # 1)%Q); (5, (1 # 1)%Q); (6, (3 # 1)%Q); (7, (6 # 1)%Q); (8, (9 # 1)%Q)].

(** What an accessor whose answer is dropped leaves in the variables. *)
Definition local_of {A} (group : option A) : local A :=
  match group with
  | Some v => Val v
  | None => Indet
  end.

(** The lines a callback prints before its optional groups: the header
    and, for three of the responses, the first group, which is read
    without a look at the accessor's answer. *)
Definition first_lines (c : ctx_ptr) (dev : QmiDevice) (cm : completion) : list event :=
  match cm with
  | SignalStrengthDone (Finished o) =>
      EvProbe ss_get_signal_strength ::
      events_in c (ss_print_current (ADevicePath dev) (local_of (ss_signal_strength o)))
  | SignalInfoDone _ =>
      [EvPrint "[%s] Successfully got signal info\n" [ADevicePath dev]]
  | ServingSystemDone (Finished o) =>
      EvPrint "[%s] Successfully got serving system:\n" [ADevicePath dev] ::
      EvProbe sy_get_serving_system ::
      events_in c (sy_print_serving_system (local_of (sy_serving_system o)))
  | TechnologyPreferenceDone (Finished o) =>
      EvProbe tp_get_active ::
      events_in c (tp_print_active (ADevicePath dev) (local_of (tp_active o)))
  | SystemSelectionPreferenceDone _ =>
      [EvPrint "[%s] Successfully got system selection preference\n" [ADevicePath dev]]
  | NetworkScanDone _ =>
      [EvPrint "[%s] Successfully scanned networks\n" [ADevicePath dev]]
  | ResetDone _ =>
      [EvPrint "[%s] Successfully performed NAS service reset\n" [ADevicePath dev]]
  | _ => []
  end.

(** The reports of the optional groups of a response. *)
Definition optional_report (c : ctx_ptr) (cm : completion) : list event :=
  match cm with
  | SignalStrengthDone (Finished o) => signal_strength_report c o
  | SignalInfoDone (Finished o) => signal_info_report c o
  | ServingSystemDone (Finished o) => serving_system_report c o
  | TechnologyPreferenceDone (Finished o) => technology_preference_report c o
  | SystemSelectionPreferenceDone (Finished o) => system_selection_preference_report c o
  | NetworkScanDone (Finished o) => network_scan_report c o
  | _ => []
  end.

(* ===================================================================== *)
(** ** The option table *)









(* ===================================================================== *)
(** ** Further vocabulary *)

(** The events a callback makes while it reports a response. *)
Definition is_output (e : event) : bool :=
  match e with
  | EvProbe _ | EvPrint _ _ | EvWarning _ _ | EvFree => true
  | _ => false
  end.

Definition outputs (evs : list event) : Prop := forallb is_output evs = true.

(** [m] returns and only appends reporting events to the trace. *)
Definition only_outputs {A} (c : ctx_ptr) (m : M A) : Prop :=
  exists a evs, writes c m a evs /\ outputs evs.

(** The events a completion callback may make at all: those of the report,
    the bookkeeping of the response and of the error, and the teardown. *)
Definition is_callback_event (e : event) : bool :=
  match e with
  | EvFinish _ | EvGetResult _ | EvPrintErr _ _ | EvErrorFree | EvOutputUnref _ => true
  | _ => is_output e || is_teardown e
  end.

Definition is_ref (e : event) : bool :=
  match e with
  | EvRef _ => true
  | _ => false
  end.

Definition is_ref_of (o : gobject) (e : event) : bool :=
  match e with
  | EvRef o' => gobject_eqb o o'
  | _ => false
  end.

(** The one request of a run: what [qmicli_nas_run] passes to the client
    for each callback, given whether the request mask could be set. *)
Definition request_of (cb : callback) (cli : QmiClientNas) (k : GCancellable)
           (mask_error : option string) : event :=
  match cb with
  | get_signal_strength_ready_cb =>
      EvSubmit cb cli
               match mask_error with
               | None => Some (mkInput signal_strength_mask)
               | Some _ => None
               end
               10 (Some k)
  | network_scan_ready_cb => EvSubmit cb cli None 300 (Some k)
  | noop_cb_cb => EvIdleAdd cb
  | _ => EvSubmit cb cli None 10 (Some k)
  end.








(** *** Resources *)



Definition is_input_event (e : event) : bool :=
  match e with
  | EvInputNew | EvInputUnref _ => true
  | _ => false
  end.

(** The library functions that build a new string, which the caller has
    to free; the others return a string that is not the caller's. *)
Definition builds_string (f : libstr) : bool :=
  match f with
  | qmi_nas_radio_technology_preference_build_string_from_mask
  | qmi_nas_rat_mode_preference_build_string_from_mask
  | qmi_nas_band_preference_build_string_from_mask
  | qmi_nas_lte_band_preference_build_string_from_mask
  | qmi_nas_td_scdma_band_preference_build_string_from_mask
  | qmi_nas_network_status_build_string_from_mask => true
  | _ => false
  end.

Definition built_in_arg (a : arg) : Z :=
  match a with
  | ALib f _ | ALibIndet f | ALibEnum f _ => Z.b2z (builds_string f)
  | _ => 0
  end.

(** The strings an event builds, less those it frees. *)
Definition strings_owned (e : event) : Z :=
  match e with
  | EvPrint _ args | EvPrintErr _ args | EvWarning _ args =>
      fold_right (fun a n => built_in_arg a + n) 0 args
  | EvFree => -1
  | _ => 0
  end.

Definition strings_left (evs : list event) : Z :=
  fold_right (fun e n => strings_owned e + n) 0 evs.

(** [m] returns, only writes to the trace, and leaves [n] strings
    unfreed. *)
Definition leaves {A} (c : ctx_ptr) (m : M A) (n : Z) : Prop :=
  exists a evs, writes c m a evs /\ strings_left evs = n.

(* ===================================================================== *)
(** * Properties *)

(** ** The trace *)

Lemma log_nil (w : World) : log [] w = w.
Proof. destruct w; unfold log; simpl; now rewrite app_nil_r. Qed.

Lemma log_log (e1 e2 : list event) (w : World) :
  log e2 (log e1 w) = log (e1 ++ e2) w.
Proof. unfold log; simpl; now rewrite app_assoc. Qed.

Lemma count_app (p : event -> bool) (a b : list event) :
  count p (a ++ b) = (count p a + count p b)%nat.
Proof. unfold count; now rewrite filter_app, length_app. Qed.

(** ** Computations that only write to the trace *)

Lemma quiet_app (a b : list event) : quiet a -> quiet b -> quiet (a ++ b).
Proof. unfold quiet; intros Ha Hb; now rewrite forallb_app, Ha, Hb. Qed.


Section Writes.
Variable c : ctx_ptr.

Lemma writes_ret {A} (a : A) : writes c (ret a) a [].
Proof. intros w _; unfold ret; now rewrite log_nil. Qed.

Lemma writes_emit (e : event) : writes c (emit e) tt [e].
Proof. intros w _; reflexivity. Qed.

Lemma writes_bind {A B} (m : M A) (k : A -> M B) a b e1 e2 :
  writes c m a e1 -> writes c (k a) b e2 -> writes c (bind m k) b (e1 ++ e2).
Proof.
  intros Hm Hk w Hw; unfold bind.
  rewrite (Hm w Hw), (Hk (log e1 w) Hw); now rewrite log_log.
Qed.

(** Running the rest of a function after such a prefix. *)
Lemma bind_writes {A B} (m : M A) (k : A -> M B) a e1 (w : World) :
  writes c m a e1 -> ctx w = c -> bind m k w = k a (log e1 w).
Proof. intros Hm Hw; unfold bind; now rewrite (Hm w Hw). Qed.

Lemma writes_events_in {A} (m : M A) a evs :
  writes c m a evs -> events_in c m = evs.
Proof. intros Hm; unfold events_in; now rewrite (Hm (world_with c) eq_refl). Qed.

Lemma writes_get_unchecked {A} (acc : accessor) (group : option A) :
  writes c (get_unchecked acc group)
         (match group with Some v => Val v | None => Indet end) [EvProbe acc].
Proof.
  unfold get_unchecked; change [EvProbe acc] with ([EvProbe acc] ++ []).
  apply writes_bind with (a := tt); [apply writes_emit | apply writes_ret].
Qed.

Lemma only_prints_ret {A} (a : A) : only_prints c (ret a).
Proof. exists a, []; split; [apply writes_ret | reflexivity]. Qed.

Lemma only_prints_emit (e : event) : is_teardown e = false -> only_prints c (emit e).
Proof.
  intros He; exists tt, [e]; split; [apply writes_emit|].
  unfold quiet; simpl; now rewrite He.
Qed.

Lemma only_prints_bind {A B} (m : M A) (k : A -> M B) :
  only_prints c m -> (forall a, only_prints c (k a)) -> only_prints c (bind m k).
Proof.
  intros (a & e1 & H1 & Q1) Hk; destruct (Hk a) as (b & e2 & H2 & Q2).
  exists b, (e1 ++ e2); split; [now apply writes_bind with (a := a) | now apply quiet_app].
Qed.

Lemma only_prints_for_each {A} (body : Z -> A -> M unit) (array : list A) :
  (forall i x, only_prints c (body i x)) ->
  forall i, only_prints c (for_each i array body).
Proof.
  intros Hbody; induction array as [|x rest IH]; intros i; simpl.
  - apply only_prints_ret.
  - apply only_prints_bind; [apply Hbody | intros _; apply IH].
Qed.

Lemma only_prints_sinr_level (level : Z) : only_prints c (get_db_from_sinr_level level).
Proof.
  unfold get_db_from_sinr_level.
  repeat match goal with
         | |- context [if ?b then _ else _] => destruct b; [apply only_prints_ret|]
         end.
  apply only_prints_bind; [now apply only_prints_emit | intros _; apply only_prints_ret].
Qed.

(** An optional group writes its report, and nothing else. *)
Lemma writes_if_get {A} (acc : accessor) (group : option A) (body : A -> M unit) :
  (forall v, only_prints c (body v)) ->
  writes c (if_get acc group body) tt (rendered c acc group body) /\
  quiet (rendered c acc group body).
Proof.
  intros Hbody; unfold if_get, rendered.
  change (EvProbe acc :: ?l) with ([EvProbe acc] ++ l).
  destruct group as [v|].
  - destruct (Hbody v) as ([] & evs & Hv & Qv).
    rewrite (writes_events_in _ _ _ Hv); split.
    + apply writes_bind with (a := tt); [apply writes_emit | exact Hv].
    + now apply quiet_app.
  - split; [|reflexivity].
    apply writes_bind with (a := tt); [apply writes_emit | apply writes_ret].
Qed.

(** Two steps in a row write one report after the other. *)
Lemma writes_then (m1 m2 : M unit) e1 e2 :
  writes c m1 tt e1 /\ quiet e1 ->
  writes c m2 tt e2 /\ quiet e2 ->
  writes c (bind m1 (fun _ => m2)) tt (e1 ++ e2) /\ quiet (e1 ++ e2).
Proof.
  intros [H1 Q1] [H2 Q2]; split;
    [now apply writes_bind with (a := tt) | now apply quiet_app].
Qed.
End Writes.

(** Every printing function of the callbacks only writes to the trace. *)
Ltac prints_only :=
  repeat first
    [ intro
    | match goal with v : (_ * _)%type |- _ => destruct v end
    | apply only_prints_ret
    | apply only_prints_emit; reflexivity
    | apply only_prints_sinr_level
    | apply only_prints_for_each
    | apply only_prints_bind ].

Create HintDb nas.

#[local] Hint Unfold
  si_print_cdma si_print_hdr si_print_gsm si_print_wcdma si_print_lte si_print_tdma
  ss_print_strength_list ss_print_rssi_list ss_print_ecio_list ss_print_io
  ss_print_sinr ss_print_rsrq ss_print_lte_snr ss_print_lte_rsrp
  sy_print_interface sy_print_roaming_indicator sy_print_data_service_capability
  sy_print_current_plmn sy_print_cdma_system_id sy_print_cdma_base_station_info
  sy_print_roaming_indicator_list sy_print_default_roaming_indicator
  sy_print_time_zone_3gpp2 sy_print_cdma_p_rev sy_print_time_zone_3gpp
  sy_print_daylight_saving_time_adjustment_3gpp sy_print_lac_3gpp sy_print_cid_3gpp
  sy_print_concurrent_service_info_3gpp2 sy_print_prl_indicator_3gpp2
  sy_print_dual_transfer_mode_supported sy_print_detailed_service_status
  sy_print_cdma_system_info sy_print_hdr_personality sy_print_lte_tac
  sy_print_call_barring_status sy_print_umts_primary_scrambling_code
  sy_print_mnc_pcs_digit_include_status
  sp_print_emergency_mode sp_print_mask sp_print_enum sp_print_manual_network_selection
  ns_print_network_information ns_print_radio_access_technology
  ns_print_mnc_pcs_digit_include_status
  g_print g_printerr g_warning g_debug : nas.

(** A group's printing code only prints. *)
Ltac group_prints :=
  intros; autounfold with nas; prints_only.

(** A chain of optional groups writes the chain of their reports. *)
Ltac groups_report :=
  repeat (apply writes_then; [apply writes_if_get; group_prints|]);
  apply writes_if_get; group_prints.

(** ** The reports of the optional groups *)

Lemma get_signal_info_groups_report (c : ctx_ptr) (o : SignalInfoOutput) :
  writes c (get_signal_info_groups o) tt (signal_info_report c o) /\
  quiet (signal_info_report c o).
Proof. unfold get_signal_info_groups, signal_info_report; groups_report. Qed.

Lemma get_signal_strength_groups_report (c : ctx_ptr) (o : SignalStrengthOutput) :
  writes c (get_signal_strength_groups o) tt (signal_strength_report c o) /\
  quiet (signal_strength_report c o).
Proof. unfold get_signal_strength_groups, signal_strength_report; groups_report. Qed.

Lemma get_serving_system_groups_report (c : ctx_ptr) (o : ServingSystemOutput) :
  writes c (get_serving_system_groups o) tt (serving_system_report c o) /\
  quiet (serving_system_report c o).
Proof. unfold get_serving_system_groups, serving_system_report; groups_report. Qed.

Lemma get_system_selection_preference_groups_report
      (c : ctx_ptr) (o : SystemSelectionPreferenceOutput) :
  writes c (get_system_selection_preference_groups o) tt
         (system_selection_preference_report c o) /\
  quiet (system_selection_preference_report c o).
Proof.
  unfold get_system_selection_preference_groups, system_selection_preference_report;
    groups_report.
Qed.

Lemma network_scan_groups_report (c : ctx_ptr) (o : NetworkScanOutput) :
  writes c (network_scan_groups o) tt (network_scan_report c o) /\
  quiet (network_scan_report c o).
Proof. unfold network_scan_groups, network_scan_report; groups_report. Qed.

(** ** Teardown *)

Section Teardown.
Variables (dev : QmiDevice) (cli : QmiClientNas) (k : GCancellable).
Let c := run_context dev cli k.

Lemma shutdown_finishes (operation_status : bool) :
  finishes c (shutdown operation_status) (teardown_events dev cli k operation_status).
Proof.
  intros [o n ch cx p e t] Hc; simpl in Hc; subst cx.
  subst c; cbv -[app]; now repeat rewrite <- app_assoc.
Qed.

Lemma finishes_bind {A} (m : M A) (rest : A -> M unit) a e1 e2 :
  writes c m a e1 -> finishes c (rest a) e2 -> finishes c (bind m rest) (e1 ++ e2).
Proof.
  intros Hm Hk w Hw; rewrite (bind_writes c m rest a e1 w Hm Hw).
  rewrite (Hk (log e1 w) Hw), log_log; reflexivity.
Qed.

Lemma finishes_eq (m : M unit) e e' : finishes c m e -> e = e' -> finishes c m e'.
Proof. now intros H <-. Qed.

Lemma writes_device_path : writes c device_path_display (ADevicePath dev) [].
Proof.
  intros [o n ch cx p e t] Hc; simpl in Hc; subst cx.
  subst c; cbv -[app]; now rewrite app_nil_r.
Qed.

Lemma only_prints_device_path : only_prints c device_path_display.
Proof. exists (ADevicePath dev), []; split; [apply writes_device_path | reflexivity]. Qed.

(** The exit on a failed request. *)
Lemma operation_failed_finishes (message : string) :
  finishes c (operation_failed message)
           (EvPrintErr "error: operation failed: %s\n" [AStr message] :: EvErrorFree ::
            teardown_events dev cli k false).
Proof.
  unfold operation_failed, g_printerr.
  eapply finishes_eq.
  - eapply finishes_bind; [apply writes_emit|].
    eapply finishes_bind; [apply writes_emit|].
    apply shutdown_finishes.
  - reflexivity.
Qed.

(** The exit on a response whose result is a failure. *)
Lemma result_failed_finishes (cb : callback) (fmt message : string) :
  finishes c (result_failed cb fmt message)
           (EvPrintErr fmt [AStr message] :: EvErrorFree :: EvOutputUnref cb ::
            teardown_events dev cli k false).
Proof.
  unfold result_failed, g_printerr.
  eapply finishes_eq.
  - eapply finishes_bind; [apply writes_emit|].
    eapply finishes_bind; [apply writes_emit|].
    eapply finishes_bind; [apply writes_emit|].
    apply shutdown_finishes.
  - reflexivity.
Qed.

(** The exit after the report of a successful response. *)
Lemma report_finishes (cb : callback) (report : list event) (groups : M unit) :
  writes c groups tt report ->
  finishes c (bind groups (fun _ => bind (emit (EvOutputUnref cb))
                                         (fun _ => shutdown true)))
           (report ++ EvOutputUnref cb :: teardown_events dev cli k true).
Proof.
  intros Hg; eapply finishes_bind; [exact Hg|].
  change (EvOutputUnref cb :: ?l) with ([EvOutputUnref cb] ++ l).
  eapply finishes_bind; [apply writes_emit | apply shutdown_finishes].
Qed.

(** *** The callbacks, path by path *)

Lemma get_signal_info_ready_success (o : SignalInfoOutput) :
  si_result o = ResultSuccess ->
  finishes c (get_signal_info_ready (Finished o))
           (EvFinish get_signal_info_ready_cb ::
            EvGetResult get_signal_info_ready_cb ::
            EvPrint "[%s] Successfully got signal info\n" [ADevicePath dev] ::
            signal_info_report c o ++
            EvOutputUnref get_signal_info_ready_cb :: teardown_events dev cli k true).
Proof.
  intros Hr; unfold get_signal_info_ready; rewrite Hr.
  eapply finishes_eq.
  - eapply finishes_bind; [apply writes_emit|].
    eapply finishes_bind; [apply writes_emit|].
    eapply finishes_bind; [apply writes_device_path|].
    eapply finishes_bind; [apply writes_emit|].
    apply report_finishes, get_signal_info_groups_report.
  - reflexivity.
Qed.

Lemma get_signal_strength_ready_success (o : SignalStrengthOutput) :
  ss_result o = ResultSuccess ->
  finishes c (get_signal_strength_ready (Finished o))
           (EvFinish get_signal_strength_ready_cb ::
            EvGetResult get_signal_strength_ready_cb ::
            EvProbe ss_get_signal_strength ::
            EvPrint "[%s] Successfully got signal strength\nCurrent:\n\tNetwork '%s': '%d dBm'\n"
                    match ss_signal_strength o with
                    | Some (strength, radio_interface) =>
                        [ADevicePath dev; radio_interface_string radio_interface;
                         AInt strength]
                    | None =>
                        [ADevicePath dev;
                         ALibIndet qmi_nas_radio_interface_get_string; AIndet]
                    end ::
            signal_strength_report c o ++
            EvOutputUnref get_signal_strength_ready_cb ::
            teardown_events dev cli k true).
Proof.
  intros Hr; unfold get_signal_strength_ready; rewrite Hr.
  eapply finishes_eq.
  - eapply finishes_bind; [apply writes_emit|].
    eapply finishes_bind; [apply writes_emit|].
    eapply finishes_bind; [apply writes_get_unchecked|].
    eapply finishes_bind; [apply writes_device_path|].
    eapply finishes_bind; [apply writes_emit|].
    apply report_finishes, get_signal_strength_groups_report.
  - destruct (ss_signal_strength o) as [[]|]; reflexivity.
Qed.

Lemma sy_print_serving_system_writes (v : Z * Z * Z * Z * list Z) :
  writes c (sy_print_serving_system (Val v)) tt
         (events_in c (sy_print_serving_system (Val v))) /\
  quiet (events_in c (sy_print_serving_system (Val v))).
Proof.
  assert (H : only_prints c (sy_print_serving_system (Val v))).
  { destruct v as [[[[r cs] ps] net] ifaces]; unfold sy_print_serving_system.
    group_prints. }
  destruct H as ([] & evs & Hw & Hq).
  now rewrite (writes_events_in _ _ _ _ Hw).
Qed.

Lemma get_serving_system_ready_success (o : ServingSystemOutput) v :
  sy_result o = ResultSuccess ->
  sy_serving_system o = Some v ->
  finishes c (get_serving_system_ready (Finished o))
           (EvFinish get_serving_system_ready_cb ::
            EvGetResult get_serving_system_ready_cb ::
            EvPrint "[%s] Successfully got serving system:\n" [ADevicePath dev] ::
            EvProbe sy_get_serving_system ::
            events_in c (sy_print_serving_system (Val v)) ++
            serving_system_report c o ++
            EvOutputUnref get_serving_system_ready_cb ::
            teardown_events dev cli k true).
Proof.
  intros Hr Hv; unfold get_serving_system_ready; rewrite Hr, Hv.
  eapply finishes_eq.
  - eapply finishes_bind; [apply writes_emit|].
    eapply finishes_bind; [apply writes_emit|].
    eapply finishes_bind; [apply writes_device_path|].
    eapply finishes_bind; [apply writes_emit|].
    eapply finishes_bind; [apply writes_get_unchecked|].
    eapply finishes_bind; [apply sy_print_serving_system_writes|].
    apply report_finishes, get_serving_system_groups_report.
  - reflexivity.
Qed.

Lemma tp_persistent_report (o : TechnologyPreferenceOutput) :
  writes c (if_get tp_get_persistent (tp_persistent o) tp_print_persistent) tt
         (technology_preference_report c o) /\
  quiet (technology_preference_report c o).
Proof.
  apply writes_if_get; intros v; unfold tp_print_persistent.
  apply only_prints_bind; [apply only_prints_device_path|].
  group_prints.
Qed.

Lemma get_technology_preference_ready_success (o : TechnologyPreferenceOutput) :
  tp_result o = ResultSuccess ->
  finishes c (get_technology_preference_ready (Finished o))
           (EvFinish get_technology_preference_ready_cb ::
            EvGetResult get_technology_preference_ready_cb ::
            EvProbe tp_get_active ::
            EvPrint "[%s] Successfully got technology preference\n\tActive: '%s', duration: '%s'\n"
                    match tp_active o with
                    | Some (preference, duration) =>
                        [ADevicePath dev;
                         ALib qmi_nas_radio_technology_preference_build_string_from_mask
                              preference;
                         ALib qmi_nas_preference_duration_get_string duration]
                    | None =>
                        [ADevicePath dev;
                         ALibIndet qmi_nas_radio_technology_preference_build_string_from_mask;
                         ALibIndet qmi_nas_preference_duration_get_string]
                    end ::
            EvFree ::
            technology_preference_report c o ++
            EvOutputUnref get_technology_preference_ready_cb ::
            teardown_events dev cli k true).
Proof.
  intros Hr; unfold get_technology_preference_ready, tp_print_active; rewrite Hr.
  eapply finishes_eq.
  - eapply finishes_bind; [apply writes_emit|].
    eapply finishes_bind; [apply writes_emit|].
    eapply finishes_bind; [apply writes_get_unchecked|].
    eapply finishes_bind; [apply writes_device_path|].
    eapply finishes_bind.
    { eapply writes_bind with (a := tt); apply writes_emit. }
    apply report_finishes, tp_persistent_report.
  - destruct (tp_active o) as [[]|]; reflexivity.
Qed.

Lemma get_system_selection_preference_ready_success
      (o : SystemSelectionPreferenceOutput) :
  sp_result o = ResultSuccess ->
  finishes c (get_system_selection_preference_ready (Finished o))
           (EvFinish get_system_selection_preference_ready_cb ::
            EvGetResult get_system_selection_preference_ready_cb ::
            EvPrint "[%s] Successfully got system selection preference\n"
                    [ADevicePath dev] ::
            system_selection_preference_report c o ++
            EvOutputUnref get_system_selection_preference_ready_cb ::
            teardown_events dev cli k true).
Proof.
  intros Hr; unfold get_system_selection_preference_ready; rewrite Hr.
  eapply finishes_eq.
  - eapply finishes_bind; [apply writes_emit|].
    eapply finishes_bind; [apply writes_emit|].
    eapply finishes_bind; [apply writes_device_path|].
    eapply finishes_bind; [apply writes_emit|].
    apply report_finishes, get_system_selection_preference_groups_report.
  - reflexivity.
Qed.

Lemma network_scan_ready_success (o : NetworkScanOutput) :
  ns_result o = ResultSuccess ->
  finishes c (network_scan_ready (Finished o))
           (EvFinish network_scan_ready_cb ::
            EvGetResult network_scan_ready_cb ::
            EvPrint "[%s] Successfully scanned networks\n" [ADevicePath dev] ::
            network_scan_report c o ++
            EvOutputUnref network_scan_ready_cb :: teardown_events dev cli k true).
Proof.
  intros Hr; unfold network_scan_ready; rewrite Hr.
  eapply finishes_eq.
  - eapply finishes_bind; [apply writes_emit|].
    eapply finishes_bind; [apply writes_emit|].
    eapply finishes_bind; [apply writes_device_path|].
    eapply finishes_bind; [apply writes_emit|].
    apply report_finishes, network_scan_groups_report.
  - reflexivity.
Qed.

Lemma reset_ready_success (o : ResetOutput) :
  rs_result o = ResultSuccess ->
  finishes c (reset_ready (Finished o))
           (EvFinish reset_ready_cb ::
            EvGetResult reset_ready_cb ::
            EvPrint "[%s] Successfully performed NAS service reset\n" [ADevicePath dev] ::
            EvOutputUnref reset_ready_cb :: teardown_events dev cli k true).
Proof.
  intros Hr; unfold reset_ready; rewrite Hr.
  eapply finishes_eq.
  - eapply finishes_bind; [apply writes_emit|].
    eapply finishes_bind; [apply writes_emit|].
    eapply finishes_bind; [apply writes_device_path|].
    eapply finishes_bind; [apply writes_emit|].
    eapply finishes_bind; [apply writes_emit|].
    apply shutdown_finishes.
  - reflexivity.
Qed.

Lemma noop_finishes :
  finishes c (bind noop_cb (fun _ => ret tt)) (teardown_events dev cli k true).
Proof.
  intros w Hw; unfold noop_cb, bind.
  now rewrite (shutdown_finishes true w Hw).
Qed.
End Teardown.

(** ** Every completion ends in one teardown *)

Ltac transport_failure_path :=
  eapply finishes_eq;
  [ eapply finishes_bind; [apply writes_emit | apply operation_failed_finishes]
  | reflexivity ].

Ltac result_failure_path :=
  eapply finishes_eq;
  [ eapply finishes_bind; [apply writes_emit|];
    eapply finishes_bind; [apply writes_emit | apply result_failed_finishes]
  | reflexivity ].

(** A response whose overall result is a failure: the failure is
    reported, the response dropped and the context torn down. *)
Lemma invoke_result_failure dev cli k (cm : completion) (message : string) :
  overall_result cm = Some (ResultFailure message) ->
  exists fmt,
    finishes (run_context dev cli k) (invoke cm)
             (EvFinish (callback_of cm) :: EvGetResult (callback_of cm) ::
              EvPrintErr fmt [AStr message] :: EvErrorFree ::
              EvOutputUnref (callback_of cm) :: teardown_events dev cli k false).
Proof.
  destruct cm as [[o|m]|[o|m]|[o|m]|[o|m]|[o|m]|[o|m]|[o|m]|];
    intros H; simpl in H; try discriminate; injection H as H; eexists;
    cbn [invoke callback_of];
    [ unfold get_signal_strength_ready | unfold get_signal_info_ready
    | unfold get_serving_system_ready | unfold get_technology_preference_ready
    | unfold get_system_selection_preference_ready | unfold network_scan_ready
    | unfold reset_ready ];
    rewrite H; result_failure_path.
Qed.

(** A request the transport failed to complete. *)
Lemma invoke_transport_failure dev cli k (cm : completion) (message : string) :
  transport_error cm = Some message ->
  finishes (run_context dev cli k) (invoke cm)
           (EvFinish (callback_of cm) ::
            EvPrintErr "error: operation failed: %s\n" [AStr message] :: EvErrorFree ::
            teardown_events dev cli k false).
Proof.
  destruct cm as [[o|m]|[o|m]|[o|m]|[o|m]|[o|m]|[o|m]|[o|m]|];
    intros H; simpl in H; try discriminate; injection H as ->;
    cbn [invoke callback_of];
    [ unfold get_signal_strength_ready | unfold get_signal_info_ready
    | unfold get_serving_system_ready | unfold get_technology_preference_ready
    | unfold get_system_selection_preference_ready | unfold network_scan_ready
    | unfold reset_ready ];
    transport_failure_path.
Qed.

Lemma quiet_cons (e : event) (evs : list event) :
  is_teardown e = false -> quiet evs -> quiet (e :: evs).
Proof. unfold quiet; simpl; now intros -> ->. Qed.

Lemma finishes_body c (m : M unit) (pre : list event) (x : event) (td : list event) :
  finishes c m (pre ++ x :: td) -> quiet pre -> is_teardown x = false ->
  exists body, quiet body /\ finishes c m (body ++ td).
Proof.
  intros Hf Hq Hx; exists (pre ++ [x]); split.
  - apply quiet_app; [exact Hq | now apply quiet_cons].
  - now rewrite <- app_assoc.
Qed.

Ltac quiet_report H :=
  repeat (apply quiet_cons; [reflexivity|]);
  repeat (apply quiet_app; [solve [apply H | apply sy_print_serving_system_writes]|]);
  solve [apply H | reflexivity].

(** Whatever the completion, the callback returns after exactly one
    teardown, which comes last. *)
Lemma invoke_finishes dev cli k (cm : completion) :
  decodable cm = true ->
  exists body,
    quiet body /\
    finishes (run_context dev cli k) (invoke cm)
             (body ++ teardown_events dev cli k (succeeded cm)).
Proof.
  intros Hd.
  destruct (transport_error cm) as [m|] eqn:Ht.
  { replace (succeeded cm) with false
      by (destruct cm as [[]|[]|[]|[]|[]|[]|[]|]; simpl in *; congruence).
    eexists [_; _; _]; split; [|apply (invoke_transport_failure dev cli k cm m Ht)].
    reflexivity. }
  destruct (overall_result cm) as [[|m]|] eqn:Hr.
  - (* a successful response *)
    destruct cm as [[o|m]|[o|m]|[o|m]|[o|m]|[o|m]|[o|m]|[o|m]|];
      simpl in Ht, Hr; try discriminate; injection Hr as Hr;
      unfold succeeded, overall_result; rewrite Hr; simpl invoke.
    + eapply (finishes_body _ _ (_ :: _ :: _ :: _ :: _));
        [apply (get_signal_strength_ready_success dev cli k o Hr) | | reflexivity].
      quiet_report (get_signal_strength_groups_report (run_context dev cli k) o).
    + eapply (finishes_body _ _ (_ :: _ :: _ :: _));
        [apply (get_signal_info_ready_success dev cli k o Hr) | | reflexivity].
      quiet_report (get_signal_info_groups_report (run_context dev cli k) o).
    + simpl in Hd; rewrite Hr in Hd.
      destruct (sy_serving_system o) as [v|] eqn:Hv; [|discriminate].
      pose proof (get_serving_system_ready_success dev cli k o v Hr Hv) as Hf.
      rewrite app_assoc in Hf.
      eapply (finishes_body _ _ (_ :: _ :: _ :: _ :: _)); [exact Hf | | reflexivity].
      quiet_report (get_serving_system_groups_report (run_context dev cli k) o).
    + eapply (finishes_body _ _ (_ :: _ :: _ :: _ :: _ :: _));
        [apply (get_technology_preference_ready_success dev cli k o Hr) | | reflexivity].
      quiet_report (tp_persistent_report dev cli k o).
    + eapply (finishes_body _ _ (_ :: _ :: _ :: _));
        [apply (get_system_selection_preference_ready_success dev cli k o Hr)
        | | reflexivity].
      quiet_report
        (get_system_selection_preference_groups_report (run_context dev cli k) o).
    + eapply (finishes_body _ _ (_ :: _ :: _ :: _));
        [apply (network_scan_ready_success dev cli k o Hr) | | reflexivity].
      quiet_report (network_scan_groups_report (run_context dev cli k) o).
    + eapply (finishes_body _ _ [_; _; _]);
        [apply (reset_ready_success dev cli k o Hr) | reflexivity | reflexivity].
  - (* a response whose result is a failure *)
    destruct (invoke_result_failure dev cli k cm m Hr) as [fmt Hf].
    replace (succeeded cm) with false
      by (unfold succeeded; rewrite Hr; now destruct cm).
    eexists [_; _; _; _; _]; split; [|exact Hf].
    reflexivity.
  - (* the idle turn *)
    destruct cm as [[o|m]|[o|m]|[o|m]|[o|m]|[o|m]|[o|m]|[o|m]|];
      simpl in Ht, Hr; try discriminate.
    exists []; split; [reflexivity | apply noop_finishes].
Qed.

(** ** The dispatcher *)




(** Outside the statement above: a run without a token.  The member
    [cancellable] of the new block is then never assigned, and the
    teardown tests it all the same. *)
Example teardown_without_token :
  exists w',
    run_and_complete 1%nat 2%nat None IdleTurn
                     (initial_world (mkOptions false false false false false false
                                               false true) None) =
      Some (Undefined "read of an uninitialised struct member" w') /\
    ctx w' = CtxLive (mkContext (Init (Some 1%nat)) (Init (Some 2%nat)) Uninit) /\
    count is_teardown (trace w') = 0%nat.
Proof. eexists; split; [vm_compute; reflexivity | split; reflexivity]. Qed.

(** C3: for every operation and every completed response whose overall result
    is a failure, the callback prints the failure detail, drops the
    response, tears the context down with an unsuccessful finish, and
    calls no accessor of a field group. *)
Theorem failing_result_probes_nothing dev cli k (cm : completion)
        (message : string) (w : World) :
  overall_result cm = Some (ResultFailure message) ->
  ctx w = run_context dev cli k ->
  exists fmt,
    let evs := EvFinish (callback_of cm) :: EvGetResult (callback_of cm) ::
               EvPrintErr fmt [AStr message] :: EvErrorFree ::
               EvOutputUnref (callback_of cm) :: teardown_events dev cli k false in
    invoke cm w = Ok tt (set_ctx CtxFreed (log evs w)) /\
    count is_probe evs = 0%nat /\
    count is_operation_done evs = 1%nat /\
    In (EvOperationDone false) evs.
Proof.
  intros Hr Hc.
  destruct (invoke_result_failure dev cli k cm message Hr) as [fmt Hf].
  exists fmt; cbv zeta; split; [exact (Hf w Hc)|].
  split; [reflexivity|]; split; [reflexivity|].
  simpl; tauto.
Qed.

Lemma failing_result_probes_nothing_witness :
  let cm := ServingSystemDone
              (Finished (mkServingSystemOutput
                           (ResultFailure "no service")
                           (Some (1, 1, 1, 1, [8])) (Some 1) None None None None None
                           None None None None None None None None None None None
                           None None None None None None)) in
  let w := mkWorld no_options 1 true (run_context 1%nat 2%nat 3%nat) [] None [] in
  (overall_result cm = Some (ResultFailure "no service") /\
   ctx w = run_context 1%nat 2%nat 3%nat) /\
  exists fmt,
    let evs := EvFinish (callback_of cm) :: EvGetResult (callback_of cm) ::
               EvPrintErr fmt [AStr "no service"] :: EvErrorFree ::
               EvOutputUnref (callback_of cm) ::
               teardown_events 1%nat 2%nat 3%nat false in
    invoke cm w = Ok tt (set_ctx CtxFreed (log evs w)) /\
    count is_probe evs = 0%nat /\
    count is_operation_done evs = 1%nat /\
    In (EvOperationDone false) evs.
Proof.
  intros cm w; split; [split; reflexivity|].
  apply (failing_result_probes_nothing 1%nat 2%nat 3%nat cm "no service" w); reflexivity.
Defined.

(** C2, the code at the failing input: when the library cannot set the request
    mask, [get_signal_strength_input_create] reports the condition and
    returns [NULL]; [qmicli_nas_run] does not look at what it got, submits
    the request with a [NULL] input and returns with the callback left
    with the main loop.  No teardown and no finished signal belong to the
    run. *)
Theorem run_submits_after_build_failure dev cli k (message : string) (w : World) :
  get_signal_strength_flag (options w) = true ->
  set_request_mask_error w = Some message ->
  let evs := [EvSliceNew; EvRef (ObjDevice dev); EvRef (ObjClient cli);
              EvRef (ObjCancellable k); EvInputNew;
              EvPrintErr "error: couldn't create input data bundle: '%s'\n"
                         [AStr message];
              EvErrorFree; EvInputUnref (Some (mkInput []));
              EvDebug "Asynchronously getting signal strength...";
              EvSubmit get_signal_strength_ready_cb cli None 10 (Some k);
              EvInputUnref None] in
  qmicli_nas_run dev cli (Some k) w =
    Ok tt (set_pending (pending w ++ [get_signal_strength_ready_cb])
             (set_ctx (run_context dev cli k) (log evs w))) /\
  count is_request evs = 1%nat /\
  count is_teardown evs = 0%nat.
Proof.
  destruct w as [[f1 f2 f3 f4 f5 f6 f7 f8] n ch cx p e t]; simpl.
  intros -> ->; split; [|split; reflexivity].
  cbv -[app]; now repeat rewrite <- app_assoc.
Qed.

Lemma run_submits_after_build_failure_witness :
  let w := initial_world (mkOptions true false false false false false false false)
                         (Some "out of memory") in
  (get_signal_strength_flag (options w) = true /\
   set_request_mask_error w = Some "out of memory") /\
  exists evs,
    qmicli_nas_run 1%nat 2%nat (Some 3%nat) w =
      Ok tt (set_pending [get_signal_strength_ready_cb]
               (set_ctx (run_context 1%nat 2%nat 3%nat) (log evs w))) /\
    In (EvSubmit get_signal_strength_ready_cb 2%nat None 10 (Some 3%nat)) evs /\
    count is_teardown evs = 0%nat.
Proof.
  intros w; split; [split; reflexivity|].
  destruct (run_submits_after_build_failure 1%nat 2%nat 3%nat "out of memory" w
              eq_refl eq_refl) as (Hrun & _ & Hq).
  eexists; split; [exact Hrun|]; split; [simpl; tauto | exact Hq].
Defined.

(** C10: when all eight action flags are false, [qmicli_nas_run] still allocates
    the context and takes a reference to the device and to the client (and
    to the token, when one is given), then only warns that the end of the
    function was reached: it submits no request and schedules no callback.
    With nothing left with the main loop, no later turn changes the world:
    the context stays allocated and the finished signal is never sent. *)
Theorem run_without_action dev cli (cancel : option GCancellable) (w : World) :
  options w = no_options ->
  let c := mkContext (Init (Some dev)) (Init (Some cli))
                     match cancel with Some k => Init (Some k) | None => Uninit end in
  let evs := [EvSliceNew; EvRef (ObjDevice dev); EvRef (ObjClient cli)] ++
             match cancel with Some k => [EvRef (ObjCancellable k)] | None => [] end ++
             [EvWarnIfReached] in
  let w' := set_ctx (CtxLive c) (log evs w) in
  qmicli_nas_run dev cli cancel w = Ok tt w' /\
  count is_request evs = 0%nat /\
  count is_teardown evs = 0%nat /\
  pending w' = pending w /\
  (pending w = [] -> forall w'', reachable w' w'' -> w'' = w').
Proof.
  destruct w as [o n ch cx p e t]; simpl; intros ->.
  split; [|split; [|split; [|split]]].
  - destruct cancel; cbv -[app]; now repeat rewrite <- app_assoc.
  - now destruct cancel.
  - now destruct cancel.
  - reflexivity.
  - intros -> w'' Hr; induction Hr as [|w1 w2 cm _ IH Hstep]; [reflexivity|].
    subst w1; discriminate Hstep.
Qed.

Lemma run_without_action_witness :
  let w := initial_world no_options None in
  let w' := set_ctx (CtxLive (mkContext (Init (Some 1%nat)) (Init (Some 2%nat))
                                        (Init (Some 3%nat))))
                    (log [EvSliceNew; EvRef (ObjDevice 1%nat); EvRef (ObjClient 2%nat);
                          EvRef (ObjCancellable 3%nat); EvWarnIfReached] w) in
  options w = no_options /\
  qmicli_nas_run 1%nat 2%nat (Some 3%nat) w = Ok tt w' /\
  forall w'', reachable w' w'' -> w'' = w'.
Proof.
  intros w w'; split; [reflexivity|].
  destruct (run_without_action 1%nat 2%nat (Some 3%nat) w eq_refl)
    as (Hrun & _ & _ & _ & Hnever).
  split; [exact Hrun | exact (Hnever eq_refl)].
Defined.

(** ** The action selector *)



(** ** Unit conversions *)










(** ** SINR levels *)

Lemma sinr_level_invalid (level : Z) (w : World) :
  ~ 0 <= level <= 8 ->
  get_db_from_sinr_level level w =
    Ok (SFopp G_MAXDOUBLE) (log [EvWarning "Invalid SINR level '%u'" [AUInt level]] w).
Proof.
  intros H; unfold get_db_from_sinr_level.
  unfold QMI_NAS_EVDO_SINR_LEVEL_0, QMI_NAS_EVDO_SINR_LEVEL_1, QMI_NAS_EVDO_SINR_LEVEL_2,
    QMI_NAS_EVDO_SINR_LEVEL_3, QMI_NAS_EVDO_SINR_LEVEL_4, QMI_NAS_EVDO_SINR_LEVEL_5,
    QMI_NAS_EVDO_SINR_LEVEL_6, QMI_NAS_EVDO_SINR_LEVEL_7, QMI_NAS_EVDO_SINR_LEVEL_8.
  repeat match goal with
         | |- context [level =? ?n] =>
             replace (level =? n) with false by (symmetry; apply Z.eqb_neq; lia)
         end.
  reflexivity.
Qed.

Lemma writes_sinr_level_invalid (c : ctx_ptr) (level : Z) :
  ~ 0 <= level <= 8 ->
  writes c (get_db_from_sinr_level level) (SFopp G_MAXDOUBLE)
         [EvWarning "Invalid SINR level '%u'" [AUInt level]].
Proof. intros H w _; now apply sinr_level_invalid. Qed.

(** C5: the conversion of a SINR level is a lookup in nine entries: levels 0
    to 8 give -9.0, -6.0, -4.5, -3.0, -2.0, 1.0, 3.0, 6.0 and 9.0 dB and
    print nothing.  For a level outside 0..8 the function warns of an
    invalid level and returns [-G_MAXDOUBLE], which is none of the nine
    entries; the callback goes on: the warning comes between the call of
    the group's accessor and the group's lines, and the groups that follow
    are reported as for any other response, up to the teardown with a
    successful finish. *)
Theorem sinr_level_lookup dev cli k :
  let c := run_context dev cli k in
  (forall level q,
      In (level, q) sinr_table ->
      exists d, has_value d q /\ forall w, get_db_from_sinr_level level w = Ok d w) /\
  (forall level w,
      ~ 0 <= level <= 8 ->
      get_db_from_sinr_level level w =
        Ok (SFopp G_MAXDOUBLE)
           (log [EvWarning "Invalid SINR level '%u'" [AUInt level]] w)) /\
  (forall level q, In (level, q) sinr_table -> ~ has_value (SFopp G_MAXDOUBLE) q) /\
  (forall (o : SignalInfoOutput) rssi ecio level io w,
      ~ 0 <= level <= 8 ->
      si_result o = ResultSuccess ->
      si_hdr_signal_strength o = Some (rssi, ecio, level, io) ->
      ctx w = c ->
      get_signal_info_ready (Finished o) w =
        Ok tt (set_ctx CtxFreed (log
          (EvFinish get_signal_info_ready_cb ::
           EvGetResult get_signal_info_ready_cb ::
           EvPrint "[%s] Successfully got signal info\n" [ADevicePath dev] ::
           rendered c si_get_cdma_signal_strength (si_cdma_signal_strength o)
                    si_print_cdma ++
           [EvProbe si_get_hdr_signal_strength;
            EvWarning "Invalid SINR level '%u'" [AUInt level];
            EvPrint "HDR:\n\tRSSI: '%d dBm'\n\tECIO: '%.1lf dBm'\n\tSINR (%u): '%.1lf dB'\n\tIO: '%d dBm'\n"
                    [AInt rssi; ADouble (ecio_db ecio); AUInt level;
                     ADouble (SFopp G_MAXDOUBLE); AInt io]] ++
           rendered c si_get_gsm_signal_strength (si_gsm_signal_strength o) si_print_gsm ++
           rendered c si_get_wcdma_signal_strength (si_wcdma_signal_strength o)
                    si_print_wcdma ++
           rendered c si_get_lte_signal_strength (si_lte_signal_strength o) si_print_lte ++
           rendered c si_get_tdma_signal_strength (si_tdma_signal_strength o)
                    si_print_tdma ++
           EvOutputUnref get_signal_info_ready_cb :: teardown_events dev cli k true) w))) /\
  (forall (o : SignalStrengthOutput) level w,
      ~ 0 <= level <= 8 ->
      ss_result o = ResultSuccess ->
      ss_sinr o = Some level ->
      ctx w = c ->
      get_signal_strength_ready (Finished o) w =
        Ok tt (set_ctx CtxFreed (log
          (EvFinish get_signal_strength_ready_cb ::
           EvGetResult get_signal_strength_ready_cb ::
           first_lines c dev (SignalStrengthDone (Finished o)) ++
           rendered c ss_get_strength_list (ss_strength_list o) ss_print_strength_list ++
           rendered c ss_get_rssi_list (ss_rssi_list o) ss_print_rssi_list ++
           rendered c ss_get_ecio_list (ss_ecio_list o) ss_print_ecio_list ++
           rendered c ss_get_io (ss_io o) ss_print_io ++
           [EvProbe ss_get_sinr;
            EvWarning "Invalid SINR level '%u'" [AUInt level];
            EvPrint "SINR:\n\tNetwork '%s': (%u) '%.1lf dB'\n"
                    [ALibEnum qmi_nas_radio_interface_get_string
                              "QMI_NAS_RADIO_INTERFACE_CDMA_1XEVDO";
                     AUInt level; ADouble (SFopp G_MAXDOUBLE)]] ++
           rendered c ss_get_rsrq (ss_rsrq o) ss_print_rsrq ++
           rendered c ss_get_lte_snr (ss_lte_snr o) ss_print_lte_snr ++
           rendered c ss_get_lte_rsrp (ss_lte_rsrp o) ss_print_lte_rsrp ++
           EvOutputUnref get_signal_strength_ready_cb ::
           teardown_events dev cli k true) w))).
Proof.
  intros c; split; [|split; [|split; [|split]]].
  - intros level q Hin; simpl in Hin.
    repeat (destruct Hin as [Hin|Hin];
            [injection Hin as <- <-; eexists; split;
             [|intros w; reflexivity]; vm_compute; reflexivity|]).
    destruct Hin.
  - intros level w H; now apply sinr_level_invalid.
  - intros level q Hin; simpl in Hin.
    repeat (destruct Hin as [Hin|Hin];
            [injection Hin as <- <-; vm_compute; discriminate|]).
    destruct Hin.
  - intros o rssi ecio level io w Hl Hr Hh Hc.
    rewrite (get_signal_info_ready_success dev cli k o Hr w Hc).
    unfold signal_info_report; rewrite Hh; fold c.
    replace (rendered c si_get_hdr_signal_strength (Some (rssi, ecio, level, io))
                      si_print_hdr)
      with [EvProbe si_get_hdr_signal_strength;
            EvWarning "Invalid SINR level '%u'" [AUInt level];
            EvPrint "HDR:\n\tRSSI: '%d dBm'\n\tECIO: '%.1lf dBm'\n\tSINR (%u): '%.1lf dB'\n\tIO: '%d dBm'\n"
                    [AInt rssi; ADouble (ecio_db ecio); AUInt level;
                     ADouble (SFopp G_MAXDOUBLE); AInt io]];
      [now rewrite <- !app_assoc|].
    unfold rendered; f_equal; symmetry.
    apply writes_events_in with (a := tt); unfold si_print_hdr.
    change [?a; ?b] with ([a] ++ [b]).
    eapply writes_bind; [now apply writes_sinr_level_invalid | apply writes_emit].
  - intros o level w Hl Hr Hs Hc.
    rewrite (get_signal_strength_ready_success dev cli k o Hr w Hc).
    unfold signal_strength_report; rewrite Hs; fold c.
    replace (rendered c ss_get_sinr (Some level) ss_print_sinr)
      with [EvProbe ss_get_sinr;
            EvWarning "Invalid SINR level '%u'" [AUInt level];
            EvPrint "SINR:\n\tNetwork '%s': (%u) '%.1lf dB'\n"
                    [ALibEnum qmi_nas_radio_interface_get_string
                              "QMI_NAS_RADIO_INTERFACE_CDMA_1XEVDO";
                     AUInt level; ADouble (SFopp G_MAXDOUBLE)]].
    + unfold first_lines; rewrite <- !app_assoc.
      destruct (ss_signal_strength o) as [[]|]; reflexivity.
    + unfold rendered; f_equal; symmetry.
      apply writes_events_in with (a := tt); unfold ss_print_sinr.
      change [?a; ?b] with ([a] ++ [b]).
      eapply writes_bind; [now apply writes_sinr_level_invalid | apply writes_emit].
Qed.

Lemma sinr_level_lookup_witness :
  let w := world_with CtxNull in
  ~ 0 <= 12 <= 8 /\
  get_db_from_sinr_level 12 w =
    Ok (SFopp G_MAXDOUBLE) (log [EvWarning "Invalid SINR level '%u'" [AUInt 12]] w).
Proof.
  intros w; assert (H : ~ 0 <= 12 <= 8) by lia.
  split; [exact H|].
  exact (proj1 (proj2 (sinr_level_lookup 1%nat 2%nat 3%nat)) 12 w H).
Defined.

(** ** Technology preference *)

(** C7: when the persistent group of a technology preference response is
    there, the call that prints the line is
    [g_print ("\tPersistent: '%s', duration: '%s'\n", path, preference)]:
    its second argument, the one the placeholder after "Persistent" takes,
    is the display path of the device, and the preference string built
    from the mask comes last, under "duration".  The line of the active
    preference has the path, then the preference string, then the
    duration string. *)
Theorem persistent_line_arguments dev cli k (o : TechnologyPreferenceOutput)
        (active duration persistent : Z) (w : World) :
  tp_result o = ResultSuccess ->
  tp_active o = Some (active, duration) ->
  tp_persistent o = Some persistent ->
  ctx w = run_context dev cli k ->
  get_technology_preference_ready (Finished o) w =
    Ok tt (set_ctx CtxFreed (log
      ([EvFinish get_technology_preference_ready_cb;
        EvGetResult get_technology_preference_ready_cb;
        EvProbe tp_get_active;
        EvPrint "[%s] Successfully got technology preference\n\tActive: '%s', duration: '%s'\n"
                [ADevicePath dev;
                 ALib qmi_nas_radio_technology_preference_build_string_from_mask active;
                 ALib qmi_nas_preference_duration_get_string duration];
        EvFree;
        EvProbe tp_get_persistent;
        EvPrint "\tPersistent: '%s', duration: '%s'\n"
                [ADevicePath dev;
                 ALib qmi_nas_radio_technology_preference_build_string_from_mask
                      persistent];
        EvFree;
        EvOutputUnref get_technology_preference_ready_cb] ++
       teardown_events dev cli k true) w)).
Proof.
  intros Hr Ha Hp Hc.
  rewrite (get_technology_preference_ready_success dev cli k o Hr w Hc).
  unfold technology_preference_report; rewrite Ha, Hp.
  reflexivity.
Qed.

Lemma persistent_line_arguments_witness :
  let o := mkTechnologyPreferenceOutput ResultSuccess (Some (3, 1)) (Some 2) in
  let w := mkWorld no_options 1 true (run_context 1%nat 2%nat 3%nat) [] None [] in
  (tp_result o = ResultSuccess /\ tp_active o = Some (3, 1) /\
   tp_persistent o = Some 2 /\ ctx w = run_context 1%nat 2%nat 3%nat) /\
  exists w',
    get_technology_preference_ready (Finished o) w = Ok tt w' /\
    In (EvPrint "\tPersistent: '%s', duration: '%s'\n"
                [ADevicePath 1%nat;
                 ALib qmi_nas_radio_technology_preference_build_string_from_mask 2])
       (trace w').
Proof.
  intros o w; split; [repeat split|].
  eexists; split;
    [exact (persistent_line_arguments 1%nat 2%nat 3%nat o 3 1 2 w
              eq_refl eq_refl eq_refl eq_refl)|].
  simpl; tauto.
Defined.

(** ** Optional groups *)

(** An absent group costs the call of its accessor and prints nothing. *)
Lemma rendered_absent {A} (c : ctx_ptr) (acc : accessor) (body : A -> M unit) :
  rendered c acc None body = [EvProbe acc].
Proof. reflexivity. Qed.




(* ===================================================================== *)
(** * Further properties *)

(** ** What a callback does and what it never does *)

Lemma outputs_app (a b : list event) : outputs a -> outputs b -> outputs (a ++ b).
Proof. unfold outputs; intros Ha Hb; now rewrite forallb_app, Ha, Hb. Qed.

Section Outputs.
Variable c : ctx_ptr.

Lemma only_outputs_ret {A} (a : A) : only_outputs c (ret a).
Proof. exists a, []; split; [apply writes_ret | reflexivity]. Qed.

Lemma only_outputs_emit (e : event) : is_output e = true -> only_outputs c (emit e).
Proof.
  intros He; exists tt, [e]; split; [apply writes_emit|].
  unfold outputs; simpl; now rewrite He.
Qed.

Lemma only_outputs_bind {A B} (m : M A) (k : A -> M B) :
  only_outputs c m -> (forall a, only_outputs c (k a)) -> only_outputs c (bind m k).
Proof.
  intros (a & e1 & H1 & Q1) Hk; destruct (Hk a) as (b & e2 & H2 & Q2).
  exists b, (e1 ++ e2); split; [now apply writes_bind with (a := a) | now apply outputs_app].
Qed.

Lemma only_outputs_for_each {A} (body : Z -> A -> M unit) (array : list A) :
  (forall i x, only_outputs c (body i x)) ->
  forall i, only_outputs c (for_each i array body).
Proof.
  intros Hbody; induction array as [|x rest IH]; intros i; simpl.
  - apply only_outputs_ret.
  - apply only_outputs_bind; [apply Hbody | intros _; apply IH].
Qed.

Lemma only_outputs_sinr_level (level : Z) : only_outputs c (get_db_from_sinr_level level).
Proof.
  unfold get_db_from_sinr_level.
  repeat match goal with
         | |- context [if ?b then _ else _] => destruct b; [apply only_outputs_ret|]
         end.
  apply only_outputs_bind; [now apply only_outputs_emit | intros _; apply only_outputs_ret].
Qed.

Lemma only_outputs_events_in {A} (m : M A) : only_outputs c m -> outputs (events_in c m).
Proof. intros (a & evs & Hw & Ho); now rewrite (writes_events_in c m a evs Hw). Qed.

Lemma rendered_outputs {A} (acc : accessor) (group : option A) (body : A -> M unit) :
  (forall v, only_outputs c (body v)) -> outputs (rendered c acc group body).
Proof.
  intros Hbody; unfold rendered; destruct group as [v|]; [|reflexivity].
  change (EvProbe acc :: ?l) with ([EvProbe acc] ++ l).
  apply outputs_app; [reflexivity | apply only_outputs_events_in, Hbody].
Qed.
End Outputs.

Ltac outputs_only :=
  repeat first
    [ intro
    | match goal with v : (_ * _)%type |- _ => destruct v end
    | apply only_outputs_ret
    | apply only_outputs_emit; reflexivity
    | apply only_outputs_sinr_level
    | apply only_outputs_for_each
    | apply only_outputs_bind ].

Ltac group_outputs :=
  intros; autounfold with nas; outputs_only.

Ltac report_outputs :=
  repeat (apply outputs_app; [apply rendered_outputs; group_outputs|]);
  apply rendered_outputs; group_outputs.

Lemma only_outputs_device_path dev cli k :
  only_outputs (run_context dev cli k) device_path_display.
Proof. exists (ADevicePath dev), []; split; [apply writes_device_path | reflexivity]. Qed.

(** The part of a successful callback between the result check and the
    release of the response only reports. *)
Lemma success_report_outputs dev cli k (cm : completion) :
  let c := run_context dev cli k in
  decodable cm = true ->
  overall_result cm = Some ResultSuccess ->
  outputs (first_lines c dev cm ++ optional_report c cm).
Proof.
  intros c Hd Hr.
  destruct cm as [[o|m]|[o|m]|[o|m]|[o|m]|[o|m]|[o|m]|[o|m]|];
    simpl in Hr; try discriminate; injection Hr as Hr;
    cbn [first_lines optional_report]; apply outputs_app; try reflexivity.
  - unfold signal_strength_report; report_outputs.
  - unfold signal_info_report; report_outputs.
  - simpl in Hd; rewrite Hr in Hd.
    destruct (sy_serving_system o) as [[[[[r cs] ps] net] ifaces]|]; [|discriminate].
    change (?a :: ?b :: ?l) with ([a; b] ++ l).
    apply outputs_app; [reflexivity | apply only_outputs_events_in].
    unfold local_of, sy_print_serving_system; group_outputs.
  - unfold serving_system_report; report_outputs.
  - unfold technology_preference_report; apply rendered_outputs.
    intros v; unfold tp_print_persistent.
    apply only_outputs_bind; [apply only_outputs_device_path | group_outputs].
  - unfold system_selection_preference_report; report_outputs.
  - unfold network_scan_report; report_outputs.
Qed.

Lemma outputs_callback_events (evs : list event) :
  outputs evs -> forallb is_callback_event evs = true.
Proof.
  unfold outputs; induction evs as [|e evs IH]; simpl; [easy|].
  intros H; apply andb_prop in H as [He Hl]; rewrite (IH Hl), andb_true_r.
  destruct e; simpl in *; congruence.
Qed.

Lemma count_none (p q : event -> bool) (evs : list event) :
  forallb q evs = true -> (forall e, q e = true -> p e = false) -> count p evs = 0%nat.
Proof.
  unfold count; induction evs as [|e evs IH]; simpl; [easy|].
  intros H Hpq; apply andb_prop in H as [He Hl].
  rewrite (Hpq e He); now apply IH.
Qed.

(** The events of a callback on a successful response. *)
Lemma invoke_success_events dev cli k (cm : completion) :
  overall_result cm = Some ResultSuccess ->
  decodable cm = true ->
  finishes (run_context dev cli k) (invoke cm)
           (EvFinish (callback_of cm) :: EvGetResult (callback_of cm) ::
            first_lines (run_context dev cli k) dev cm ++
            optional_report (run_context dev cli k) cm ++
            EvOutputUnref (callback_of cm) :: teardown_events dev cli k true).
Proof.
  intros Hr Hd w Hc.
  destruct cm as [[o|m]|[o|m]|[o|m]|[o|m]|[o|m]|[o|m]|[o|m]|];
    simpl in Hr; try discriminate; injection Hr as Hr;
    cbn [invoke callback_of optional_report first_lines].
  - rewrite (get_signal_strength_ready_success dev cli k o Hr w Hc).
    destruct (ss_signal_strength o) as [[]|]; reflexivity.
  - now rewrite (get_signal_info_ready_success dev cli k o Hr w Hc).
  - simpl in Hd; rewrite Hr in Hd.
    destruct (sy_serving_system o) as [v|] eqn:Hv; [|discriminate].
    rewrite (get_serving_system_ready_success dev cli k o v Hr Hv w Hc).
    reflexivity.
  - rewrite (get_technology_preference_ready_success dev cli k o Hr w Hc).
    destruct (tp_active o) as [[]|]; reflexivity.
  - now rewrite (get_system_selection_preference_ready_success dev cli k o Hr w Hc).
  - now rewrite (network_scan_ready_success dev cli k o Hr w Hc).
  - now rewrite (reset_ready_success dev cli k o Hr w Hc).
Qed.

(** The events of a completion, whatever it is. *)
Lemma invoke_events dev cli k (cm : completion) :
  decodable cm = true ->
  exists evs,
    finishes (run_context dev cli k) (invoke cm) evs /\
    forallb is_callback_event evs = true.
Proof.
  intros Hd.
  destruct (transport_error cm) as [m|] eqn:Ht.
  { eexists; split; [apply (invoke_transport_failure dev cli k cm m Ht) | reflexivity]. }
  destruct (overall_result cm) as [[|m]|] eqn:Hr.
  - pose proof (success_report_outputs dev cli k cm Hd Hr) as Ho.
    apply outputs_callback_events in Ho.
    exists (EvFinish (callback_of cm) :: EvGetResult (callback_of cm) ::
            (first_lines (run_context dev cli k) dev cm ++
             optional_report (run_context dev cli k) cm) ++
            EvOutputUnref (callback_of cm) :: teardown_events dev cli k true).
    split.
    + intros w Hw; rewrite <- app_assoc.
      exact (invoke_success_events dev cli k cm Hr Hd w Hw).
    + cbn [forallb is_callback_event andb]; now rewrite forallb_app, Ho.
  - destruct (invoke_result_failure dev cli k cm m Hr) as [fmt Hf].
    eexists; split; [exact Hf | reflexivity].
  - destruct cm as [[o|m]|[o|m]|[o|m]|[o|m]|[o|m]|[o|m]|[o|m]|];
      simpl in Ht, Hr; try discriminate.
    eexists; split; [apply noop_finishes | reflexivity].
Qed.

(** X1: when the transport fails the request, each of the seven callbacks
    prints the transport's message, frees the error and tears down with an
    unsuccessful finish: it asks for no result, reads no field group and
    has no response to release. *)
Theorem transport_failure_report dev cli k (cm : completion) (message : string)
        (w : World) :
  transport_error cm = Some message ->
  ctx w = run_context dev cli k ->
  let evs := EvFinish (callback_of cm) ::
             EvPrintErr "error: operation failed: %s\n" [AStr message] ::
             EvErrorFree :: teardown_events dev cli k false in
  invoke cm w = Ok tt (set_ctx CtxFreed (log evs w)) /\
  ~ In (EvGetResult (callback_of cm)) evs /\
  ~ In (EvOutputUnref (callback_of cm)) evs /\
  count is_probe evs = 0%nat.
Proof.
  intros Ht Hc; cbv zeta.
  split; [exact (invoke_transport_failure dev cli k cm message Ht w Hc)|].
  split; [|split; [|reflexivity]];
    simpl; intros H; repeat (destruct H as [H|H]; [discriminate H|]); exact H.
Qed.

Lemma transport_failure_report_witness :
  let cm := NetworkScanDone (Failed "Operation was cancelled") in
  let w := mkWorld no_options 1 true (run_context 1%nat 2%nat 3%nat) [] None [] in
  (transport_error cm = Some "Operation was cancelled" /\
   ctx w = run_context 1%nat 2%nat 3%nat) /\
  invoke cm w =
    Ok tt (set_ctx CtxFreed (log
      (EvFinish network_scan_ready_cb ::
       EvPrintErr "error: operation failed: %s\n" [AStr "Operation was cancelled"] ::
       EvErrorFree :: teardown_events 1%nat 2%nat 3%nat false) w)).
Proof.
  intros cm w; split; [split; reflexivity|].
  exact (proj1 (transport_failure_report 1%nat 2%nat 3%nat cm "Operation was cancelled" w
                  eq_refl eq_refl)).
Defined.

(** X2: a completion callback never asks for anything again: whatever the
    completion, it returns having made only events of its report, of the
    bookkeeping of the response and of the teardown.  It submits no
    request, schedules no idle callback and takes no reference, and it
    leaves the flags, the cached action count and the callbacks held by
    the main loop as they were. *)
Theorem callback_only_reports dev cli k (cm : completion) (w : World) :
  decodable cm = true ->
  ctx w = run_context dev cli k ->
  exists evs,
    invoke cm w = Ok tt (set_ctx CtxFreed (log evs w)) /\
    forallb is_callback_event evs = true /\
    count is_request evs = 0%nat /\
    count is_ref evs = 0%nat /\
    ~ In EvSliceNew evs.
Proof.
  intros Hd Hc.
  destruct (invoke_events dev cli k cm Hd) as (evs & Hf & Hk).
  exists evs; split; [exact (Hf w Hc)|]; split; [exact Hk|].
  split; [|split].
  - apply (count_none is_request is_callback_event evs Hk); now intros [].
  - apply (count_none is_ref is_callback_event evs Hk); now intros [].
  - intros Hin; rewrite forallb_forall in Hk; now specialize (Hk _ Hin).
Qed.

Lemma callback_only_reports_witness :
  let cm := ResetDone (Finished (mkResetOutput ResultSuccess)) in
  let w := mkWorld no_options 1 true (run_context 1%nat 2%nat 3%nat) [] None [] in
  (decodable cm = true /\ ctx w = run_context 1%nat 2%nat 3%nat) /\
  exists evs,
    invoke cm w = Ok tt (set_ctx CtxFreed (log evs w)) /\
    forallb is_callback_event evs = true /\
    count is_request evs = 0%nat /\
    count is_ref evs = 0%nat /\
    ~ In EvSliceNew evs.
Proof.
  intros cm w; split; [split; reflexivity|].
  exact (callback_only_reports 1%nat 2%nat 3%nat cm w eq_refl eq_refl).
Defined.

(** ** The request of a run *)

(** Whatever flags are set beside it, the first flag in the order of the
    tests decides: the run takes its three references, makes the one
    request of that flag and leaves its callback with the main loop. *)
Lemma run_dispatch dev cli k (w : World) (cb : callback) :
  selected (options w) = Some cb ->
  exists evs,
    qmicli_nas_run dev cli (Some k) w =
      Ok tt (set_pending (pending w ++ [cb])
               (set_ctx (run_context dev cli k) (log evs w))) /\
    filter is_request evs = [request_of cb cli k (set_request_mask_error w)] /\
    filter is_ref evs =
      [EvRef (ObjDevice dev); EvRef (ObjClient cli); EvRef (ObjCancellable k)] /\
    quiet evs /\
    ~ In EvWarnIfReached evs.
Proof.
  destruct w as [[f1 f2 f3 f4 f5 f6 f7 f8] n ch cx p e t].
  unfold options.
  destruct f1, f2, f3, f4, f5, f6, f7, f8; intros Hs; try discriminate Hs;
    injection Hs as <-; try destruct e as [message|];
    eexists;
    (split; [cbv -[app]; repeat rewrite <- app_assoc; reflexivity|]);
    (split; [reflexivity|]); (split; [reflexivity|]); (split; [reflexivity|]);
    simpl; intros H; repeat (destruct H as [H|H]; [discriminate H|]); exact H.
Qed.

(** X3: a run makes exactly one request, that of the first flag set in the
    order of the tests, even when other flags are set as well, and never
    reaches the warning at the end of the function.  The request goes to
    the client of the context with the token of the context; its timeout
    is 300 for the network scan and 10 for every other request; only the
    signal strength request carries an input, the mask of the seven
    categories (no input when the mask could not be set); the no-op makes
    no request and adds the idle callback instead. *)
Theorem run_makes_one_request dev cli k (w : World) (cb : callback) :
  selected (options w) = Some cb ->
  exists evs,
    qmicli_nas_run dev cli (Some k) w =
      Ok tt (set_pending (pending w ++ [cb])
               (set_ctx (run_context dev cli k) (log evs w))) /\
    filter is_request evs = [request_of cb cli k (set_request_mask_error w)] /\
    ~ In EvWarnIfReached evs.
Proof.
  intros Hs.
  destruct (run_dispatch dev cli k w cb Hs) as (evs & Hrun & Hreq & _ & _ & Hwarn).
  now exists evs.
Qed.

Lemma run_makes_one_request_witness :
  let w := initial_world (mkOptions false false false false false true true false) None in
  selected (options w) = Some network_scan_ready_cb /\
  exists evs,
    qmicli_nas_run 1%nat 2%nat (Some 3%nat) w =
      Ok tt (set_pending [network_scan_ready_cb]
               (set_ctx (run_context 1%nat 2%nat 3%nat) (log evs w))) /\
    filter is_request evs = [EvSubmit network_scan_ready_cb 2%nat None 300 (Some 3%nat)] /\
    ~ In EvWarnIfReached evs.
Proof.
  intros w; split; [reflexivity|].
  exact (run_makes_one_request 1%nat 2%nat 3%nat w network_scan_ready_cb eq_refl).
Defined.

(** ** The selector and the dispatcher together *)

Lemma options_enabled_first_call (w : World) :
  checked w = false ->
  qmicli_nas_options_enabled w =
    if 1 <? count_actions (options w)
    then Exit EXIT_FAILURE
              (log [EvPrintErr "error: too many NAS actions requested\n" []]
                   (set_n_actions (count_actions (options w)) w))
    else Ok (not_not (count_actions (options w)))
            (set_checked true (set_n_actions (count_actions (options w)) w)).
Proof.
  intros Hc; unfold qmicli_nas_options_enabled, bind, get_world; rewrite Hc.
  unfold modify.
  change (n_actions (set_n_actions ?n w)) with n.
  destruct (1 <? count_actions (options w)); reflexivity.
Qed.

Lemma one_action_selected (o : Options) :
  count_actions o = 1 -> exists cb, selected o = Some cb.
Proof.
  destruct o as [[] [] [] [] [] [] [] []]; intros H; try discriminate H;
    eexists; reflexivity.
Qed.

Lemma no_action_no_options (o : Options) : count_actions o = 0 -> o = no_options.
Proof.
  destruct o as [[] [] [] [] [] [] [] []]; intros H; try discriminate H; reflexivity.
Qed.

Lemma count_actions_nonneg (o : Options) : 0 <= count_actions o.
Proof. destruct o as [[] [] [] [] [] [] [] []]; cbv; discriminate. Qed.

(** X4: the check and the run agree.  When the first check of a process
    returns [TRUE], exactly one flag is set and the run that follows makes
    one request and leaves one callback with the main loop; when it
    returns [FALSE], no flag is set, so a run would make no request and
    only reach the warning at its end.  The check itself leaves the flags,
    the context, the main loop and the trace alone. *)
Theorem enabled_means_one_request dev cli k (w w1 : World) (answer : bool) :
  checked w = false ->
  qmicli_nas_options_enabled w = Ok answer w1 ->
  options w1 = options w /\ ctx w1 = ctx w /\ pending w1 = pending w /\
  trace w1 = trace w /\
  (answer = true ->
   count_actions (options w1) = 1 /\
   exists cb evs,
     selected (options w1) = Some cb /\
     qmicli_nas_run dev cli (Some k) w1 =
       Ok tt (set_pending (pending w1 ++ [cb])
                (set_ctx (run_context dev cli k) (log evs w1))) /\
     count is_request evs = 1%nat) /\
  (answer = false ->
   options w1 = no_options /\
   exists evs,
     qmicli_nas_run dev cli (Some k) w1 =
       Ok tt (set_ctx (run_context dev cli k) (log evs w1)) /\
     count is_request evs = 0%nat /\
     In EvWarnIfReached evs).
Proof.
  intros Hc Hrun; rewrite (options_enabled_first_call w Hc) in Hrun.
  pose proof (count_actions_nonneg (options w)) as Hn.
  destruct (1 <? count_actions (options w)) eqn:Hlt; [discriminate|].
  apply Z.ltb_ge in Hlt; injection Hrun as <- <-.
  repeat (split; [reflexivity|]).
  change (options (set_checked true (set_n_actions ?n w))) with (options w).
  set (w1 := set_checked true (set_n_actions (count_actions (options w)) w)).
  unfold not_not; split; intros Ha.
  - assert (H1 : count_actions (options w) = 1).
    { destruct (Z.eqb_spec (count_actions (options w)) 0); [discriminate | lia]. }
    split; [exact H1|].
    destruct (one_action_selected _ H1) as [cb Hs].
    destruct (run_dispatch dev cli k w1 cb Hs) as (evs & Hr & Hreq & _).
    exists cb, evs; split; [exact Hs|]; split; [exact Hr|].
    unfold count; now rewrite Hreq.
  - assert (H0 : count_actions (options w) = 0).
    { destruct (Z.eqb_spec (count_actions (options w)) 0); [assumption | discriminate]. }
    apply no_action_no_options in H0; split; [exact H0|].
    exists [EvSliceNew; EvRef (ObjDevice dev); EvRef (ObjClient cli);
            EvRef (ObjCancellable k); EvWarnIfReached].
    split; [|split; [reflexivity | simpl; tauto]].
    subst w1; destruct w as [o n ch cx p e t]; simpl in H0; subst o.
    cbv -[app]; now repeat rewrite <- app_assoc.
Qed.

Lemma enabled_means_one_request_witness :
  let w := initial_world (mkOptions false false false false true false false false) None in
  let w1 := set_checked true (set_n_actions 1 w) in
  (checked w = false /\ qmicli_nas_options_enabled w = Ok true w1) /\
  count_actions (options w1) = 1 /\
  exists cb evs,
    selected (options w1) = Some cb /\
    qmicli_nas_run 1%nat 2%nat (Some 3%nat) w1 =
      Ok tt (set_pending (pending w1 ++ [cb])
               (set_ctx (run_context 1%nat 2%nat 3%nat) (log evs w1))) /\
    count is_request evs = 1%nat.
Proof.
  intros w w1; split; [split; reflexivity|].
  destruct (enabled_means_one_request 1%nat 2%nat 3%nat w w1 true eq_refl eq_refl)
    as (_ & _ & _ & _ & Htrue & _).
  exact (Htrue eq_refl).
Defined.

(** ** References *)

Lemma count_filter (p q : event -> bool) (evs : list event) :
  (forall e, p e = true -> q e = true) -> count p (filter q evs) = count p evs.
Proof.
  intros Hpq; unfold count; induction evs as [|e evs IH]; simpl; [reflexivity|].
  destruct (q e) eqn:Hq, (p e) eqn:Hp; simpl; rewrite ?Hp; simpl; try now rewrite IH.
  apply Hpq in Hp; congruence.
Qed.

Lemma is_ref_of_is_ref (o : gobject) (e : event) : is_ref_of o e = true -> is_ref e = true.
Proof. now destruct e. Qed.

Lemma is_unref_of_is_teardown (o : gobject) (e : event) :
  is_unref_of o e = true -> is_teardown e = true.
Proof. now destruct e. Qed.

(** X5: over a whole run, from the call of [qmicli_nas_run] to the return of
    the completion callback, the references balance: the device, the
    client and the token are each referenced once and released once, and
    no other reference is taken or dropped. *)
Theorem references_balance dev cli k (cm : completion) (w : World) :
  selected (options w) = Some (callback_of cm) ->
  decodable cm = true ->
  pending w = [] ->
  exists w' evs,
    run_and_complete dev cli (Some k) cm w = Some (Ok tt w') /\
    trace w' = trace w ++ evs /\
    (forall o, In o [ObjDevice dev; ObjClient cli; ObjCancellable k] ->
               count (is_ref_of o) evs = 1%nat /\ count (is_unref_of o) evs = 1%nat) /\
    count is_ref evs = 3%nat /\
    count (fun e => match e with EvUnref _ => true | _ => false end) evs = 3%nat.
Proof.
  intros Hs Hd Hp.
  destruct (run_dispatch dev cli k w _ Hs) as (e1 & Hrun & _ & Hrefs & Hq1 & _).
  destruct (invoke_finishes dev cli k cm Hd) as (body & Hqb & Hf).
  destruct (invoke_events dev cli k cm Hd) as (e2 & Hf2 & Hk2).
  rewrite Hp in Hrun.
  set (w1 := set_ctx (run_context dev cli k) (log e1 w)) in *.
  assert (He2 : e2 = body ++ teardown_events dev cli k (succeeded cm)).
  { pose proof (Hf (set_pending [] w1) eq_refl) as H1.
    rewrite (Hf2 (set_pending [] w1) eq_refl) in H1.
    injection H1 as H1; apply app_inv_head in H1; exact H1. }
  exists (set_ctx CtxFreed (log e2 (set_pending [] w1))), (e1 ++ e2); split.
  { unfold run_and_complete; rewrite Hrun.
    change (main_loop_dispatch cm (set_pending ([] ++ [callback_of cm]) w1))
      with (if callback_eqb (callback_of cm) (callback_of cm)
            then Some (invoke cm (set_pending [] w1)) else None).
    replace (callback_eqb (callback_of cm) (callback_of cm)) with true
      by (now destruct (callback_of cm)).
    now rewrite (Hf2 (set_pending [] w1) eq_refl). }
  split; [simpl; now rewrite <- app_assoc|].
  assert (Hr2 : forall p, (forall e, p e = true -> is_ref e = true) -> count p e2 = 0%nat).
  { intros p Hp'; apply (count_none p is_callback_event e2 Hk2).
    intros e He; destruct (p e) eqn:Hpe; [|reflexivity].
    apply Hp' in Hpe; destruct e; discriminate. }
  assert (Hu1 : forall p, (forall e, p e = true -> is_teardown e = true) ->
                          count p e1 = 0%nat).
  { intros p Hp'; apply (count_none p (fun e => negb (is_teardown e)) e1 Hq1).
    intros e He; destruct (p e) eqn:Hpe; [|reflexivity].
    apply Hp' in Hpe; now rewrite Hpe in He. }
  assert (Hub : forall p, (forall e, p e = true -> is_teardown e = true) ->
                          count p body = 0%nat).
  { intros p Hp'; apply (count_none p (fun e => negb (is_teardown e)) body Hqb).
    intros e He; destruct (p e) eqn:Hpe; [|reflexivity].
    apply Hp' in Hpe; now rewrite Hpe in He. }
  split; [|split].
  - intros o Ho; split.
    + rewrite count_app, (Hr2 _ (is_ref_of_is_ref o)), Nat.add_0_r.
      rewrite <- (count_filter (is_ref_of o) is_ref e1 (is_ref_of_is_ref o)), Hrefs.
      unfold count; simpl in Ho |- *.
      destruct Ho as [<-|[<-|[<-|[]]]]; simpl; now rewrite Nat.eqb_refl.
    + rewrite count_app, (Hu1 _ (is_unref_of_is_teardown o)), He2, count_app,
        (Hub _ (is_unref_of_is_teardown o)).
      unfold count, teardown_events; simpl in Ho |- *.
      destruct Ho as [<-|[<-|[<-|[]]]]; simpl; now rewrite Nat.eqb_refl.
  - rewrite count_app, (Hr2 is_ref (fun e H => H)), Nat.add_0_r.
    rewrite <- (count_filter is_ref is_ref e1 (fun e H => H)), Hrefs; reflexivity.
  - rewrite count_app, Hu1, He2, count_app, Hub; [reflexivity | |]; now intros [].
Qed.

Lemma references_balance_witness :
  let w := initial_world (mkOptions false false false false false false true true) None in
  let cm := ResetDone (Finished (mkResetOutput (ResultFailure "internal"))) in
  (selected (options w) = Some (callback_of cm) /\ decodable cm = true /\
   pending w = []) /\
  exists w' evs,
    run_and_complete 1%nat 2%nat (Some 3%nat) cm w = Some (Ok tt w') /\
    trace w' = trace w ++ evs /\
    (forall o, In o [ObjDevice 1%nat; ObjClient 2%nat; ObjCancellable 3%nat] ->
               count (is_ref_of o) evs = 1%nat /\ count (is_unref_of o) evs = 1%nat) /\
    count is_ref evs = 3%nat /\
    count (fun e => match e with EvUnref _ => true | _ => false end) evs = 3%nat.
Proof.
  intros w cm; split; [repeat split|].
  exact (references_balance 1%nat 2%nat 3%nat cm w eq_refl eq_refl eq_refl).
Defined.

(** ** A run without a token *)



(** ** The option table *)




(** ** Lists *)





(** ** Further unit conversions *)








(** ** Responses, errors and strings *)



(** X13: the input of the signal strength request is released exactly once
    whether or not its mask could be set: after the request when it
    could, inside [get_signal_strength_input_create] when it could not.
    In the second case the run then also hands [NULL] to the library's
    unref. *)
Theorem signal_strength_input_lifetime dev cli k (w : World) :
  get_signal_strength_flag (options w) = true ->
  exists evs,
    qmicli_nas_run dev cli (Some k) w =
      Ok tt (set_pending (pending w ++ [get_signal_strength_ready_cb])
               (set_ctx (run_context dev cli k) (log evs w))) /\
    filter (fun e => is_input_event e || is_request e) evs =
      match set_request_mask_error w with
      | None =>
          [EvInputNew;
           EvSubmit get_signal_strength_ready_cb cli
                    (Some (mkInput signal_strength_mask)) 10 (Some k);
           EvInputUnref (Some (mkInput signal_strength_mask))]
      | Some _ =>
          [EvInputNew; EvInputUnref (Some (mkInput []));
           EvSubmit get_signal_strength_ready_cb cli None 10 (Some k);
           EvInputUnref None]
      end.
Proof.
  destruct w as [[f1 f2 f3 f4 f5 f6 f7 f8] n ch cx p e t]; simpl.
  intros ->; destruct e as [message|]; eexists;
    (split; [cbv -[app]; repeat rewrite <- app_assoc; reflexivity | reflexivity]).
Qed.

Lemma signal_strength_input_lifetime_witness :
  let w := initial_world (mkOptions true false false false false false false false) None in
  get_signal_strength_flag (options w) = true /\
  exists evs,
    qmicli_nas_run 1%nat 2%nat (Some 3%nat) w =
      Ok tt (set_pending [get_signal_strength_ready_cb]
               (set_ctx (run_context 1%nat 2%nat 3%nat) (log evs w))) /\
    filter (fun e => is_input_event e || is_request e) evs =
      [EvInputNew;
       EvSubmit get_signal_strength_ready_cb 2%nat
                (Some (mkInput signal_strength_mask)) 10 (Some 3%nat);
       EvInputUnref (Some (mkInput signal_strength_mask))].
Proof.
  intros w; split; [reflexivity|].
  exact (signal_strength_input_lifetime 1%nat 2%nat 3%nat w eq_refl).
Defined.

Lemma strings_left_app (a b : list event) :
  strings_left (a ++ b) = strings_left a + strings_left b.
Proof. induction a as [|e a IH]; simpl; [reflexivity | rewrite IH; lia]. Qed.

Section Strings.
Variable c : ctx_ptr.

Lemma leaves_ret {A} (a : A) : leaves c (ret a) 0.
Proof. exists a, []; split; [apply writes_ret | reflexivity]. Qed.

Lemma leaves_emit (e : event) : leaves c (emit e) (strings_owned e).
Proof. exists tt, [e]; split; [apply writes_emit | simpl; lia]. Qed.

Lemma leaves_bind {A B} (m : M A) (k : A -> M B) n1 n2 :
  leaves c m n1 -> (forall a, leaves c (k a) n2) -> leaves c (bind m k) (n1 + n2).
Proof.
  intros (a & e1 & H1 & Q1) Hk; destruct (Hk a) as (b & e2 & H2 & Q2).
  exists b, (e1 ++ e2); split; [now apply writes_bind with (a := a)|].
  rewrite strings_left_app; lia.
Qed.

Lemma leaves_eq {A} (m : M A) n n' : leaves c m n -> n = n' -> leaves c m n'.
Proof. now intros H <-. Qed.

Lemma leaves_for_each {A} (body : Z -> A -> M unit) (array : list A) :
  (forall i x, leaves c (body i x) 0) -> forall i, leaves c (for_each i array body) 0.
Proof.
  intros Hbody; induction array as [|x rest IH]; intros i; simpl.
  - apply leaves_ret.
  - apply (leaves_bind _ _ 0 0); [apply Hbody | intros _; apply IH].
Qed.

Lemma leaves_sinr_level (level : Z) : leaves c (get_db_from_sinr_level level) 0.
Proof.
  unfold get_db_from_sinr_level.
  repeat match goal with
         | |- context [if ?b then _ else _] => destruct b; [apply leaves_ret|]
         end.
  apply (leaves_bind _ _ 0 0); [apply leaves_emit | intros _; apply leaves_ret].
Qed.

Lemma leaves_events_in {A} (m : M A) n : leaves c m n -> strings_left (events_in c m) = n.
Proof. intros (a & evs & Hw & Ho); now rewrite (writes_events_in c m a evs Hw). Qed.

Lemma rendered_strings {A} (acc : accessor) (group : option A) (body : A -> M unit) :
  (forall v, leaves c (body v) 0) -> strings_left (rendered c acc group body) = 0.
Proof.
  intros Hbody; unfold rendered; destruct group as [v|]; [|reflexivity].
  change (EvProbe acc :: ?l) with ([EvProbe acc] ++ l).
  rewrite strings_left_app, (leaves_events_in _ 0 (Hbody v)); reflexivity.
Qed.
End Strings.

Ltac leaves_steps :=
  repeat first
    [ apply leaves_ret
    | eapply leaves_eq; [apply leaves_emit | cbv; reflexivity]
    | apply leaves_sinr_level
    | apply leaves_for_each; leaves_zero
    | eapply leaves_bind; [|intro] ]
with leaves_zero :=
  intros; autounfold with nas;
  repeat match goal with
         | v : (_ * _)%type |- _ => destruct v
         | b : bool |- _ => destruct b
         | v : local _ |- _ => destruct v
         end;
  (eapply leaves_eq; [leaves_steps | vm_compute; reflexivity]).

Ltac report_strings :=
  repeat (rewrite strings_left_app, rendered_strings by leaves_zero);
  try reflexivity.

Lemma leaves_after_path dev cli k {B} (rest : arg -> M B) n :
  leaves (run_context dev cli k) (rest (ADevicePath dev)) n ->
  leaves (run_context dev cli k) (bind device_path_display rest) n.
Proof.
  intros (b & evs & Hw & Hn); exists b, ([] ++ evs); split; [|exact Hn].
  apply writes_bind with (a := ADevicePath dev); [apply writes_device_path | exact Hw].
Qed.

Lemma success_report_strings dev cli k (cm : completion) :
  let c := run_context dev cli k in
  decodable cm = true ->
  overall_result cm = Some ResultSuccess ->
  strings_left (first_lines c dev cm ++ optional_report c cm) = 0.
Proof.
  intros c Hd Hr.
  destruct cm as [[o|m]|[o|m]|[o|m]|[o|m]|[o|m]|[o|m]|[o|m]|];
    simpl in Hr; try discriminate; injection Hr as Hr;
    cbn [first_lines optional_report]; rewrite strings_left_app.
  - replace (strings_left (signal_strength_report c o)) with 0
      by (unfold signal_strength_report; report_strings;
          symmetry; apply rendered_strings; leaves_zero).
    destruct (ss_signal_strength o) as [[]|]; reflexivity.
  - replace (strings_left (signal_info_report c o)) with 0
      by (unfold signal_info_report; report_strings;
          symmetry; apply rendered_strings; leaves_zero).
    reflexivity.
  - replace (strings_left (serving_system_report c o)) with 0
      by (unfold serving_system_report; report_strings;
          symmetry; apply rendered_strings; leaves_zero).
    simpl in Hd; rewrite Hr in Hd.
    destruct (sy_serving_system o) as [[[[[r cs] ps] net] ifaces]|]; [|discriminate].
    change (?a :: ?b :: ?l) with ([a; b] ++ l).
    rewrite strings_left_app, (leaves_events_in c _ 0); [reflexivity|].
    unfold local_of, sy_print_serving_system; leaves_zero.
  - replace (strings_left (technology_preference_report c o)) with 0.
    + destruct (tp_active o) as [[]|]; reflexivity.
    + symmetry; unfold technology_preference_report; apply rendered_strings.
      intros v; unfold tp_print_persistent.
      apply leaves_after_path; autounfold with nas.
      eapply leaves_eq; [leaves_steps | vm_compute; reflexivity].
  - replace (strings_left (system_selection_preference_report c o)) with 0
      by (unfold system_selection_preference_report; report_strings;
          symmetry; apply rendered_strings; leaves_zero).
    reflexivity.
  - replace (strings_left (network_scan_report c o)) with 0
      by (unfold network_scan_report; report_strings;
          symmetry; apply rendered_strings; leaves_zero).
    reflexivity.
  - reflexivity.
Qed.

(** X14: every string that a callback has the library build from a mask is
    freed: over the whole callback, on every path, the calls of [g_free]
    are as many as the strings built, whichever groups are there and
    however long the list of scanned networks is.  Strings that the
    library only lends (the names of enumeration values) are never
    freed. *)
Theorem built_strings_freed dev cli k (cm : completion) (w : World) :
  decodable cm = true ->
  ctx w = run_context dev cli k ->
  exists evs,
    invoke cm w = Ok tt (set_ctx CtxFreed (log evs w)) /\
    strings_left evs = 0.
Proof.
  intros Hd Hc.
  destruct (transport_error cm) as [m|] eqn:Ht.
  { eexists; split; [exact (invoke_transport_failure dev cli k cm m Ht w Hc)|].
    reflexivity. }
  destruct (overall_result cm) as [[|m]|] eqn:Hr.
  - eexists; split; [exact (invoke_success_events dev cli k cm Hr Hd w Hc)|].
    pose proof (success_report_strings dev cli k cm Hd Hr) as Hs.
    change (?a :: ?b :: ?l) with ([a; b] ++ l).
    rewrite strings_left_app, app_assoc, strings_left_app, Hs; reflexivity.
  - destruct (invoke_result_failure dev cli k cm m Hr) as [fmt Hf].
    eexists; split; [exact (Hf w Hc) | reflexivity].
  - destruct cm as [[o|m]|[o|m]|[o|m]|[o|m]|[o|m]|[o|m]|[o|m]|];
      simpl in Ht, Hr; try discriminate.
    eexists; split; [exact (noop_finishes dev cli k w Hc) | reflexivity].
Qed.

Lemma built_strings_freed_witness :
  let cm := NetworkScanDone
              (Finished (mkNetworkScanOutput ResultSuccess
                           (Some [(214, 7, 4, "forbidden one"); (214, 1, 0, "other")])
                           None None)) in
  let w := mkWorld no_options 1 true (run_context 1%nat 2%nat 3%nat) [] None [] in
  (decodable cm = true /\ ctx w = run_context 1%nat 2%nat 3%nat) /\
  exists evs,
    invoke cm w = Ok tt (set_ctx CtxFreed (log evs w)) /\
    strings_left evs = 0.
Proof.
  intros cm w; split; [split; reflexivity|].
  exact (built_strings_freed 1%nat 2%nat 3%nat cm w eq_refl eq_refl).
Defined.
